(** * Yellowknife coffee: the bean-consumption and cost-allocation engine

    A shallow embedding of the stock ledger, the recipe resolver, the
    consumption arithmetic and the cost queries of [app.py], over an
    explicit model of the relational store the handlers read and write.

    Conventions of the embedding.
    - In the main model a [REAL] column and a Python float are exact
      rationals ([Qc]), and Python's [round(x, 3)] is rounding of the exact
      value to three decimals, ties to the even neighbour.  That model carries
      the properties that do not turn on the last bit of the arithmetic.
    - The sale edit and the sale delete are embedded a second time over
      binary64 ([F64]), with CPython's [round], for the properties that do.
    - A date is a (year, month, day) triple ordered lexicographically, which is
      how SQLite orders the ISO texts the handlers store.
    - A table is the list of its rows in insertion order; the inventory table,
      which carries [UNIQUE(bean_origin, bean_product)], is a finite map from
      the pair to [current_stock_kg].
    - A Python exception is the [Raise] case of [Py.result]. *)

From Stdlib Require Import QArith Qcanon Qround ZArith String Lqa.
From Stdlib Require Import Floats.
From stdpp Require Import gmap strings list numbers.

Open Scope Qc_scope.

#[global] Set Warnings "-inexact-float".

(** ** Python results *)

Module Py.

Inductive exn : Type :=
| UnboundLocalError (name : string)
| TypeError (msg : string).

Inductive result (A : Type) : Type :=
| Ok (a : A)
| Raise (e : exn).
Arguments Ok {A} a.
Arguments Raise {A} e.

Definition bind {A B} (r : result A) (k : A -> result B) : result B :=
  match r with
  | Ok a => k a
  | Raise e => Raise e
  end.

(** Reading a local name that no executed statement has bound. *)
Definition read_local {A} (name : string) (v : option A) : result A :=
  match v with
  | Some a => Ok a
  | None => Raise (UnboundLocalError name)
  end.

(** Truth value of a string and of an integer. *)
Definition truthy_str (s : string) : bool := negb (String.eqb s "").
Definition truthy_int (n : Z) : bool := negb (n =? 0)%Z.

End Py.

#[global] Instance result_ret : MRet Py.result := fun _ a => Py.Ok a.
#[global] Instance result_bind : MBind Py.result := fun _ _ k r => Py.bind r k.

(** ** Numbers *)

Definition ROASTING_LOSS_RATE : Qc := Q2Qc (12 # 10).

Definition Qc_of_Z (n : Z) : Qc := Q2Qc (inject_Z n).

Definition round_half_even (x : Qc) : Z :=
  let n := Qfloor x in
  let frac := x - Qc_of_Z n in
  if decide (frac < Q2Qc (1 # 2)) then n
  else if decide (Q2Qc (1 # 2) < frac) then (n + 1)%Z
  else if Z.even n then n else (n + 1)%Z.

(** [round(x, 3)] *)
Definition round3 (x : Qc) : Qc :=
  Q2Qc (round_half_even (x * Qc_of_Z 1000) # 1000).

(** ** Dates *)

Record date : Type := Date { year : nat; month : nat; day : nat }.

#[global] Instance date_eq_dec : EqDecision date.
Proof. solve_decision. Defined.

Definition date_leb (a b : date) : bool :=
  if (year a <? year b)%nat then true
  else if (year b <? year a)%nat then false
  else if (month a <? month b)%nat then true
  else if (month b <? month a)%nat then false
  else (day a <=? day b)%nat.

(** Order of a nullable [DATE] column: [NULL] sorts below every date. *)
Definition null_date_leb (a b : option date) : bool :=
  match a, b with
  | None, _ => true
  | Some _, None => false
  | Some x, Some y => date_leb x y
  end.

(** [ORDER BY key DESC], rows of equal key in table order. *)
Section OrderBy.
Context {A : Type} (key : A -> option date).

Fixpoint insert_desc (x : A) (l : list A) : list A :=
  match l with
  | [] => [x]
  | y :: l' =>
      if null_date_leb (key y) (key x) then x :: y :: l'
      else y :: insert_desc x l'
  end.

Definition order_by_desc (l : list A) : list A := foldr insert_desc [] l.
End OrderBy.

(** ** Tables *)

Module Purchase.
Record row : Type := Row {
  id : Z;
  purchase_date : date;
  origin : string;
  product_name : string;
  quantity_kg : Qc;
  unit_price : Qc;
  total_amount : Qc;
  supplier : string }.
End Purchase.

Module Sale.
Record row : Type := Row {
  id : Z;
  sale_date : date;
  product_name : string;
  quantity_kg : Qc;
  unit_price : Qc;
  total_amount : Qc;
  customer : string }.
End Sale.

Module BlendRecipe.
Record row : Type := Row {
  product_name : string;
  green_bean_origin : string;
  green_bean_product : string;
  blend_ratio : Qc;
  effective_date : option date }.
End BlendRecipe.

Module MasterBomRecipe.
Record row : Type := Row {
  master_bom_id : Z;
  green_bean_origin : string;
  green_bean_product : string;
  blend_ratio : Qc }.
End MasterBomRecipe.

Module Product.
Record row : Type := Row {
  id : Z;
  product_name : string;
  is_active : bool }.
End Product.

Module BomHistory.
Record row : Type := Row {
  product_id : Z;
  master_bom_id : option Z;
  effective_date : date }.
End BomHistory.

Module VariableCost.
(** The columns of [variable_costs] in both schema scripts. *)
Record row : Type := Row {
  year : Z;
  month : Z;
  cost_per_kg : Qc }.
End VariableCost.

Inductive transaction_type : Type :=
| bean_purchase | sale | purchase_delete | sale_edit | sale_delete.

(** The free-text note of a transaction, by template. *)
Inductive note : Type :=
| NotePurchase (supplier : string)
| NoteSale (product : string) (quantity green_bean_needed : Qc) (customer : string)
| NotePurchaseDelete
| NoteEditRestore (product : string)
| NoteEditDeduct (product : string)
| NoteSaleDelete (product : string).

Module Tx.
Record row : Type := Row {
  transaction_date : date;
  transaction_type_ : transaction_type;
  bean_origin : string;
  bean_product : string;
  quantity_kg : Qc;
  reference_id : option Z;
  notes : note }.
End Tx.

Record DB : Type := mkDB {
  green_bean_purchases : list Purchase.row;
  green_bean_inventory : gmap (string * string) Qc;
  product_sales : list Sale.row;
  blend_recipes : list BlendRecipe.row;
  master_bom_recipes : list MasterBomRecipe.row;
  products : list Product.row;
  product_bom_history : list BomHistory.row;
  variable_costs : list VariableCost.row;
  inventory_transactions : list Tx.row;
  (** the [AUTOINCREMENT] counters of the two tables whose ids are read back *)
  purchase_seq : Z;
  sale_seq : Z }.

Definition empty_db : DB :=
  mkDB [] ∅ [] [] [] [] [] [] [] 0 0.

Definition set_purchases (f : list Purchase.row -> list Purchase.row) (db : DB) : DB :=
  mkDB (f (green_bean_purchases db)) (green_bean_inventory db) (product_sales db)
       (blend_recipes db) (master_bom_recipes db) (products db)
       (product_bom_history db) (variable_costs db) (inventory_transactions db)
       (purchase_seq db) (sale_seq db).

Definition set_inventory (f : gmap (string * string) Qc -> gmap (string * string) Qc)
    (db : DB) : DB :=
  mkDB (green_bean_purchases db) (f (green_bean_inventory db)) (product_sales db)
       (blend_recipes db) (master_bom_recipes db) (products db)
       (product_bom_history db) (variable_costs db) (inventory_transactions db)
       (purchase_seq db) (sale_seq db).

Definition set_sales (f : list Sale.row -> list Sale.row) (db : DB) : DB :=
  mkDB (green_bean_purchases db) (green_bean_inventory db) (f (product_sales db))
       (blend_recipes db) (master_bom_recipes db) (products db)
       (product_bom_history db) (variable_costs db) (inventory_transactions db)
       (purchase_seq db) (sale_seq db).

Definition set_transactions (f : list Tx.row -> list Tx.row) (db : DB) : DB :=
  mkDB (green_bean_purchases db) (green_bean_inventory db) (product_sales db)
       (blend_recipes db) (master_bom_recipes db) (products db)
       (product_bom_history db) (variable_costs db) (f (inventory_transactions db))
       (purchase_seq db) (sale_seq db).

Definition bump_purchase_seq (db : DB) : DB :=
  mkDB (green_bean_purchases db) (green_bean_inventory db) (product_sales db)
       (blend_recipes db) (master_bom_recipes db) (products db)
       (product_bom_history db) (variable_costs db) (inventory_transactions db)
       (purchase_seq db + 1) (sale_seq db).

Definition bump_sale_seq (db : DB) : DB :=
  mkDB (green_bean_purchases db) (green_bean_inventory db) (product_sales db)
       (blend_recipes db) (master_bom_recipes db) (products db)
       (product_bom_history db) (variable_costs db) (inventory_transactions db)
       (purchase_seq db) (sale_seq db + 1).

(** ** Stock ledger helpers (app.py, 240-302) *)

Definition update_green_bean_inventory (origin product : string)
    (quantity_change : Qc) (db : DB) : DB :=
  match green_bean_inventory db !! (origin, product) with
  | Some current => set_inventory <[(origin, product) := current + quantity_change]> db
  | None => set_inventory <[(origin, product) := quantity_change]> db
  end.

Definition add_inventory_transaction (transaction_date : date)
    (ty : transaction_type) (origin product : string) (quantity_kg : Qc)
    (reference_id : option Z) (notes : note) (db : DB) : DB :=
  set_transactions
    (fun txs => txs ++ [Tx.Row transaction_date ty origin product quantity_kg
                               reference_id notes]) db.

Definition get_bean_stock (db : DB) (origin product : string) : Qc :=
  match green_bean_inventory db !! (origin, product) with
  | Some current => current
  | None => 0
  end.

(** Sum of the [quantity_kg] deltas of one bean over the transaction log. *)
Definition tx_of_bean (origin product : string) (t : Tx.row) : bool :=
  bool_decide (Tx.bean_origin t = origin) && bool_decide (Tx.bean_product t = product).

Definition ledger_sum (txs : list Tx.row) (origin product : string) : Qc :=
  foldr (fun t acc => if tx_of_bean origin product t then Tx.quantity_kg t + acc else acc)
        0 txs.

Definition get_bean_full_name (origin product : string) : string :=
  if Py.truthy_str product then origin +:+ " - " +:+ product else origin.

(** ** Recipe resolver (app.py, 308-408) *)

Definition recipe_line : Type := string * string * Qc.

Inductive bom_source : Type := new_system | old_system | none.

(** [SELECT id FROM products WHERE product_name = ? AND is_active = 1], one row. *)
Definition select_product_id (db : DB) (product_name : string) : option Z :=
  Product.id <$>
    head (filter (fun r => Product.product_name r = product_name /\
                           Product.is_active r = true) (products db)).

(** [... FROM product_bom_history WHERE product_id = ? AND effective_date <= ?
     ORDER BY effective_date DESC LIMIT 1] *)
Definition select_bom_history_upto (db : DB) (product_id : Z) (sale_date : date)
    : option BomHistory.row :=
  head (order_by_desc (fun r => Some (BomHistory.effective_date r))
          (filter (fun r => BomHistory.product_id r = product_id /\
                            date_leb (BomHistory.effective_date r) sale_date = true)
                  (product_bom_history db))).

(** [... FROM product_bom_history WHERE product_id = ?
     ORDER BY effective_date DESC LIMIT 1] *)
Definition select_bom_history_latest (db : DB) (product_id : Z)
    : option BomHistory.row :=
  head (order_by_desc (fun r => Some (BomHistory.effective_date r))
          (filter (fun r => BomHistory.product_id r = product_id)
                  (product_bom_history db))).

Definition get_master_bom_recipe (db : DB) (master_bom_id : Z) : list recipe_line :=
  (fun r => (MasterBomRecipe.green_bean_origin r,
             MasterBomRecipe.green_bean_product r,
             MasterBomRecipe.blend_ratio r)) <$>
    filter (fun r => MasterBomRecipe.master_bom_id r = master_bom_id)
           (master_bom_recipes db).

(** [... FROM blend_recipes WHERE product_name = ?
     AND (effective_date IS NULL OR effective_date <= ?)
     ORDER BY effective_date DESC] *)
Definition select_blend_recipes_upto (db : DB) (product_name : string)
    (sale_date : date) : list BlendRecipe.row :=
  order_by_desc BlendRecipe.effective_date
    (filter (fun r => BlendRecipe.product_name r = product_name /\
                      null_date_leb (BlendRecipe.effective_date r) (Some sale_date) = true)
            (blend_recipes db)).

(** [... FROM blend_recipes WHERE product_name = ? ORDER BY effective_date DESC] *)
Definition select_blend_recipes_all (db : DB) (product_name : string)
    : list BlendRecipe.row :=
  order_by_desc BlendRecipe.effective_date
    (filter (fun r => BlendRecipe.product_name r = product_name) (blend_recipes db)).

(** The rows of a fetched batch that carry the effective date of its first row. *)
Definition latest_batch (records : list BlendRecipe.row) : list BlendRecipe.row :=
  match records with
  | [] => []
  | r0 :: _ =>
      filter (fun r => BlendRecipe.effective_date r = BlendRecipe.effective_date r0)
             records
  end.

Definition line_of (r : BlendRecipe.row) : recipe_line :=
  (BlendRecipe.green_bean_origin r, BlendRecipe.green_bean_product r,
   BlendRecipe.blend_ratio r).

(** [get_product_bom(product_name, sale_date=None)].  In both stages the
    statement that fetches the rows sits in the [else] branch of
    [if sale_date:], so a supplied date leaves the local name unbound; the
    dated [SELECT] is executed and its cursor dropped. *)
Definition get_product_bom (db : DB) (product_name : string) (sale_date : option date)
    : Py.result (list recipe_line * bom_source) :=
  let product_result := select_product_id db product_name in
  stage1 ←
    match product_result with
    | Some product_id =>
        let bom_result : option (option BomHistory.row) :=
          match sale_date with
          | Some d => let _ := select_bom_history_upto db product_id d in None
          | None => Some (select_bom_history_latest db product_id)
          end in
        fetched ← Py.read_local "bom_result" bom_result;
        match fetched with
        | Some h =>
            match BomHistory.master_bom_id h with
            | Some master_bom_id =>
                if Py.truthy_int master_bom_id
                then mret (Some (get_master_bom_recipe db master_bom_id, new_system))
                else mret None
            | None => mret None
            end
        | None => mret None
        end
    | None => mret None
    end;
  match stage1 with
  | Some found => mret found
  | None =>
      let all_recipes : option (list BlendRecipe.row) :=
        match sale_date with
        | Some d => let _ := select_blend_recipes_upto db product_name d in None
        | None => Some (select_blend_recipes_all db product_name)
        end in
      fetched ← Py.read_local "all_recipes" all_recipes;
      match fetched with
      | [] => mret ([], none)
      | _ :: _ => mret (line_of <$> latest_batch fetched, old_system)
      end
  end.

(** ** Consumption arithmetic (app.py, 1195-1199, 1833-1836, 1864-1867, 1918-1921) *)

Definition green_bean_needed (quantity : Qc) : Qc :=
  round3 (quantity * ROASTING_LOSS_RATE).

Definition required_qty (needed ratio : Qc) : Qc :=
  round3 (needed * (ratio / Qc_of_Z 100)).

(** One ledger movement: the balance upsert followed by its log row. *)
Definition apply_delta (transaction_date : date) (ty : transaction_type)
    (origin product : string) (delta : Qc) (reference_id : option Z) (notes : note)
    (db : DB) : DB :=
  add_inventory_transaction transaction_date ty origin product delta reference_id notes
    (update_green_bean_inventory origin product delta db).

(** ** Purchase handlers (app.py, 627-657 and 1430-1499) *)

Definition required_fields (texts : list string) (numbers : list Qc) : bool :=
  forallb Py.truthy_str texts && forallb (fun x => bool_decide (0 < x)) numbers.

Definition btn_purchase (purchase_date : date) (bean_origin bean_product : string)
    (quantity unit_price : Qc) (supplier : string) (db : DB) : DB :=
  if required_fields [bean_origin; bean_product] [quantity; unit_price] then
    let total := quantity * unit_price in
    let purchase_id := (purchase_seq db + 1)%Z in
    let inserted :=
      bump_purchase_seq
        (set_purchases
           (fun rows => rows ++ [Purchase.Row purchase_id purchase_date bean_origin
                                   bean_product quantity unit_price total supplier])
           db) in
    apply_delta purchase_date bean_purchase bean_origin bean_product quantity
      (Some purchase_id) (NotePurchase supplier) inserted
  else db.

(** The edit handler issues one [UPDATE green_bean_purchases] and nothing else. *)
Definition purchase_edit_btn (selected_id : Z) (new_date : date)
    (new_origin new_product : string) (new_quantity new_unit_price : Qc)
    (new_supplier : string) (db : DB) : DB :=
  if required_fields [new_origin; new_product] [new_quantity; new_unit_price] then
    let new_total := new_quantity * new_unit_price in
    set_purchases
      (fmap (fun r =>
               if bool_decide (Purchase.id r = selected_id)
               then Purchase.Row selected_id new_date new_origin new_product
                      new_quantity new_unit_price new_total new_supplier
               else r))
      db
  else db.

(** The delete handler writes the balance with a bare [UPDATE ... WHERE], which
    touches no row when the bean has none, and then logs the negative delta. *)
Definition purchase_delete_btn (today : date) (selected_id : Z) (db : DB) : DB :=
  match head (filter (fun r => Purchase.id r = selected_id) (green_bean_purchases db)) with
  | Some purchase_data =>
      let origin := Purchase.origin purchase_data in
      let product_name := Purchase.product_name purchase_data in
      let quantity := Purchase.quantity_kg purchase_data in
      let updated :=
        set_inventory (alter (fun current => current - quantity) (origin, product_name)) db in
      let logged :=
        add_inventory_transaction today purchase_delete origin product_name
          (- quantity) (Some selected_id) NotePurchaseDelete updated in
      set_purchases (filter (fun r => Purchase.id r <> selected_id)) logged
  | None => db
  end.

(** ** Sales upload (app.py, 1162-1244) *)

Record upload_row : Type := UploadRow {
  row_date : option date;          (* [None]: the cell is NaN *)
  row_product : option string;
  row_quantity : Qc;
  row_price_with_vat : Qc;
  row_customer : string }.

Inductive message : Type :=
| NoRecipe (line : Z) (product : string)
| Shortage (line : Z) (product : string) (quantity : Qc)
           (insufficient_beans : list (string * Qc * Qc))
| RowError (line : Z) (e : Py.exn).

Record upload : Type := Upload {
  store : DB;
  success_count : nat;
  error_count : nat;
  warning_messages : list message }.

(** The beans whose balance is below the line's requirement, each with the
    required and the current quantity. *)
Definition insufficient_beans (db : DB) (needed : Qc) (recipe : list recipe_line)
    : list (string * Qc * Qc) :=
  omap (fun '(origin, product_name_bean, ratio) =>
          let required := required_qty needed ratio in
          let current_stock := get_bean_stock db origin product_name_bean in
          if decide (current_stock < required)
          then Some (get_bean_full_name origin product_name_bean, required, current_stock)
          else None) recipe.

Definition deduct_all (sale_date : date) (product : string) (quantity needed : Qc)
    (customer : string) (recipe : list recipe_line) (db : DB) : DB :=
  foldl (fun acc '(origin, product_name_bean, ratio) =>
           let required := required_qty needed ratio in
           apply_delta sale_date sale origin product_name_bean (- required) None
             (NoteSale product quantity needed customer) acc)
        db recipe.

(** The body of the row loop below the recipe lookup: the stock check, the
    deduction, and the [INSERT INTO product_sales]. *)
Definition record_sale (line : Z) (sale_date : date) (product : string)
    (quantity unit_price total : Qc) (customer : string)
    (recipe : list recipe_line) (st : upload) : upload :=
  let db := store st in
  let '(consumed, notices) :=
    match recipe with
    | [] => (db, [NoRecipe line product])
    | _ :: _ =>
        let needed := green_bean_needed quantity in
        match insufficient_beans db needed recipe with
        | [] => (deduct_all sale_date product quantity needed customer recipe db, [])
        | short => (db, [Shortage line product quantity short])
        end
    end in
  let sale_id := (sale_seq consumed + 1)%Z in
  let inserted :=
    bump_sale_seq
      (set_sales (fun rows => rows ++ [Sale.Row sale_id sale_date product quantity
                                         unit_price total customer]) consumed) in
  Upload inserted (S (success_count st)) (error_count st)
         (warning_messages st ++ notices).

(** One iteration of the row loop; any exception of the body is caught, counted
    and reported, and the row is left out. *)
Definition upload_sales_row (st : upload) (idx : Z) (row : upload_row) : upload :=
  match row_date row, row_product row with
  | Some sale_date, Some product =>
      let quantity := row_quantity row in
      let unit_price := row_price_with_vat row / Q2Qc (11 # 10) in
      let total := quantity * unit_price in
      let customer := row_customer row in
      match get_product_bom (store st) product (Some sale_date) with
      | Py.Ok (recipe, _) =>
          record_sale (idx + 2) sale_date product quantity unit_price total customer
            recipe st
      | Py.Raise e =>
          Upload (store st) (success_count st) (S (error_count st))
                 (warning_messages st ++ [RowError (idx + 2) e])
      end
  | _, _ => st
  end.

Definition btn_upload_sales (rows : list upload_row) (db : DB) : upload :=
  fst (foldl (fun '(st, idx) row => (upload_sales_row st idx row, (idx + 1)%Z))
             (Upload db 0 0 [], 0%Z) rows).

(** ** Sale edit and delete (app.py, 1810-1942) *)

Definition restore_all (transaction_date : date) (ty : transaction_type)
    (selected_id : Z) (notes : note) (needed : Qc)
    (recipe : list BlendRecipe.row) (db : DB) : DB :=
  foldl (fun acc r =>
           let restore_qty := required_qty needed (BlendRecipe.blend_ratio r) in
           apply_delta transaction_date ty (BlendRecipe.green_bean_origin r)
             (BlendRecipe.green_bean_product r) restore_qty (Some selected_id) notes acc)
        db recipe.

Definition deduct_edit (new_date : date) (selected_id : Z) (new_product : string)
    (needed : Qc) (recipe : list BlendRecipe.row) (db : DB) : DB :=
  foldl (fun acc r =>
           let deduct_qty := required_qty needed (BlendRecipe.blend_ratio r) in
           apply_delta new_date sale_edit (BlendRecipe.green_bean_origin r)
             (BlendRecipe.green_bean_product r) (- deduct_qty) (Some selected_id)
             (NoteEditDeduct new_product) acc)
        db recipe.

(** Phase 1 of the edit: the original consumption is put back. *)
Definition sale_edit_restore (record : Sale.row) (new_date : date) (db : DB) : DB :=
  let old_recipe :=
    latest_batch (select_blend_recipes_upto db (Sale.product_name record)
                                            (Sale.sale_date record)) in
  restore_all new_date sale_edit (Sale.id record)
    (NoteEditRestore (Sale.product_name record))
    (green_bean_needed (Sale.quantity_kg record)) old_recipe db.

(** Phase 2 of the edit: the new consumption is taken. *)
Definition sale_edit_deduct (record : Sale.row) (new_date : date)
    (new_product : string) (new_quantity : Qc) (db : DB) : DB :=
  let new_recipe := latest_batch (select_blend_recipes_upto db new_product new_date) in
  deduct_edit new_date (Sale.id record) new_product (green_bean_needed new_quantity)
    new_recipe db.

Definition sale_edit_btn (record : Sale.row) (new_date : date) (new_product : string)
    (new_quantity new_unit_price : Qc) (new_customer : string) (db : DB) : DB :=
  if required_fields [new_product] [new_quantity; new_unit_price] then
    let selected_id := Sale.id record in
    let restored := sale_edit_restore record new_date db in
    let deducted := sale_edit_deduct record new_date new_product new_quantity restored in
    let new_total := new_quantity * new_unit_price in
    set_sales
      (fmap (fun r =>
               if bool_decide (Sale.id r = selected_id)
               then Sale.Row selected_id new_date new_product new_quantity
                      new_unit_price new_total new_customer
               else r))
      deducted
  else db.

Definition sale_delete_btn (record : Sale.row) (db : DB) : DB :=
  let selected_id := Sale.id record in
  let recipe :=
    latest_batch (select_blend_recipes_upto db (Sale.product_name record)
                                            (Sale.sale_date record)) in
  let restored :=
    restore_all (Sale.sale_date record) sale_delete selected_id
      (NoteSaleDelete (Sale.product_name record))
      (green_bean_needed (Sale.quantity_kg record)) recipe db in
  set_sales (filter (fun r => Sale.id r <> selected_id)) restored.

(** ** Cost queries (app.py, 2068-2089 and 3417-3422) *)

(** SQL aggregates over a nullable result: [SUM] of no row is [NULL], a
    division by [NULL] or by zero is [NULL]. *)
Definition sql_sum (xs : list Qc) : option Qc :=
  match xs with
  | [] => None
  | _ :: _ => Some (foldr Qcplus 0 xs)
  end.

Definition sql_div (a b : option Qc) : option Qc :=
  match a, b with
  | Some x, Some y => if decide (y = 0) then None else Some (x / y)
  | _, _ => None
  end.

Definition sql_nullif_zero (a : option Qc) : option Qc :=
  match a with
  | Some x => if decide (x = 0) then None else Some x
  | None => None
  end.

Definition purchases_of (db : DB) (origin product_name : string) : list Purchase.row :=
  filter (fun p => Purchase.origin p = origin /\ Purchase.product_name p = product_name)
         (green_bean_purchases db).

Definition purchases_upto (db : DB) (origin product_name : string) (cutoff : date)
    : list Purchase.row :=
  filter (fun p => date_leb (Purchase.purchase_date p) cutoff = true)
         (purchases_of db origin product_name).

(** [SELECT SUM(total_amount) / SUM(quantity_kg) ... AND purchase_date <= ?] *)
Definition bean_price_query (db : DB) (origin product_name : string) (cutoff : date)
    : option Qc :=
  let rows := purchases_upto db origin product_name cutoff in
  sql_div (sql_sum (Purchase.total_amount <$> rows))
          (sql_sum (Purchase.quantity_kg <$> rows)).

(** The price the report charges: a [NULL] price adds nothing to the cost. *)
Definition weighted_avg_price (db : DB) (origin product_name : string) (cutoff : date)
    : Qc :=
  default 0 (bean_price_query db origin product_name cutoff).

(** [COALESCE(SUM(quantity_kg * unit_price) / NULLIF(SUM(quantity_kg), 0), 0)]
    of the stock screen, over every purchase of the bean. *)
Definition green_inv_weighted_avg_price (db : DB) (origin product_name : string) : Qc :=
  let rows := purchases_of db origin product_name in
  default 0
    (sql_div (sql_sum ((fun p => Purchase.quantity_kg p * Purchase.unit_price p) <$> rows))
             (sql_nullif_zero (sql_sum (Purchase.quantity_kg <$> rows)))).

(** ** Monthly profit report (app.py, 3364-3463) *)

Inductive sql_outcome (A : Type) : Type :=
| Rows (rows : A)
| SqlError (msg : string).
Arguments Rows {A} rows.
Arguments SqlError {A} msg.

(** How a call site passes its arguments to
    [execute_query_to_df(conn, query, params=None)]. *)
Inductive call_shape : Type :=
| ConnQuery              (* (conn, query) or (conn, query, params) *)
| ConnQueryConnParams.   (* (conn, query, conn, params=...) *)

Definition params_bound_twice : string :=
  "execute_query_to_df() got multiple values for argument 'params'".

(** A third positional argument already binds [params], so the keyword raises
    at the call; inside the function a failing statement yields an empty frame. *)
Definition execute_query_to_df {A} (shape : call_shape) (query : sql_outcome (list A))
    : Py.result (list A) :=
  match shape with
  | ConnQuery =>
      match query with
      | Rows rows => Py.Ok rows
      | SqlError _ => Py.Ok []
      end
  | ConnQueryConnParams => Py.Raise (Py.TypeError params_bound_twice)
  end.

Definition year_month : Type := nat * nat.

Definition month_of (d : date) : year_month := (year d, month d).

(** [SELECT strftime('%Y-%m', sale_date), SUM(total_amount), SUM(quantity_kg)
     FROM product_sales WHERE sale_date BETWEEN ? AND ? GROUP BY month] *)
Definition monthly_sales (db : DB) (start_date end_date : date)
    : list (year_month * Qc * Qc) :=
  let rows := filter (fun s => date_leb start_date (Sale.sale_date s) = true /\
                               date_leb (Sale.sale_date s) end_date = true)
                     (product_sales db) in
  (fun ym =>
     let of_month := filter (fun s => month_of (Sale.sale_date s) = ym) rows in
     (ym, foldr Qcplus 0 (Sale.total_amount <$> of_month),
          foldr Qcplus 0 (Sale.quantity_kg <$> of_month)))
    <$> remove_dups (month_of ∘ Sale.sale_date <$> rows).

(** [SELECT product_name, SUM(quantity_kg) FROM product_sales
     WHERE strftime('%Y-%m', sale_date) = ? GROUP BY product_name] *)
Definition month_sales (db : DB) (ym : year_month) : list (string * Qc) :=
  let rows := filter (fun s => month_of (Sale.sale_date s) = ym) (product_sales db) in
  (fun name =>
     (name, foldr Qcplus 0
              (Sale.quantity_kg <$> filter (fun s => Sale.product_name s = name) rows)))
    <$> remove_dups (Sale.product_name <$> rows).

(** [SELECT green_bean_origin, green_bean_product, blend_ratio
     FROM blend_recipes WHERE product_name = ?]: every row of the product. *)
Definition report_recipe (db : DB) (product : string) : list BlendRecipe.row :=
  filter (fun r => BlendRecipe.product_name r = product) (blend_recipes db).

(** [variable_costs] has the columns id, year, month, cost_per_kg, notes and
    created_at in every schema script; the statement orders and filters by
    [effective_month], so SQLite rejects it. *)
Definition variable_cost_query (db : DB) (first_of_month : date)
    : sql_outcome (list Qc) :=
  SqlError "no such column: effective_month".

Fixpoint for_each {A S} (body : S -> A -> Py.result S) (items : list A) (s : S)
    : Py.result S :=
  match items with
  | [] => Py.Ok s
  | x :: rest => s' ← body s x; for_each body rest s'
  end.

Definition bean_line_cost (db : DB) (ym : year_month) (needed : Qc)
    (total_bean_cost : Qc) (bean_row : BlendRecipe.row) : Py.result Qc :=
  let origin := BlendRecipe.green_bean_origin bean_row in
  let product_name := BlendRecipe.green_bean_product bean_row in
  let ratio := BlendRecipe.blend_ratio bean_row / Qc_of_Z 100 in
  let bean_qty := needed * ratio in
  frame ← execute_query_to_df ConnQueryConnParams
            (Rows [bean_price_query db origin product_name (Date (fst ym) (snd ym) 31)]);
  match frame with
  | Some bean_price :: _ => mret (total_bean_cost + bean_qty * bean_price)
  | _ => mret total_bean_cost
  end.

Definition product_bean_cost (db : DB) (ym : year_month) (total_bean_cost : Qc)
    (sold : string * Qc) : Py.result Qc :=
  let '(product, qty) := sold in
  let needed := qty * ROASTING_LOSS_RATE in
  recipe ← execute_query_to_df ConnQuery (Rows (report_recipe db product));
  for_each (bean_line_cost db ym needed) recipe total_bean_cost.

Record profit_row : Type := ProfitRow {
  report_month : year_month;
  revenue : Qc;
  bean_cost : Qc;
  variable_cost : Qc;
  cogs : Qc;
  gross_profit : Qc;
  gross_margin : Qc }.

(** The body of the loop over the months of the report. *)
Definition profit_of_month (db : DB) (row : year_month * Qc * Qc)
    : Py.result profit_row :=
  let '(ym, month_revenue, sales_qty) := row in
  sold ← execute_query_to_df ConnQuery (Rows (month_sales db ym));
  total_bean_cost ← for_each (product_bean_cost db ym) sold 0;
  var_cost ← execute_query_to_df ConnQueryConnParams
               (variable_cost_query db (Date (fst ym) (snd ym) 1));
  let variable_cost_total :=
    match var_cost with
    | cost_per_kg :: _ => sales_qty * cost_per_kg
    | [] => 0
    end in
  let total := total_bean_cost + variable_cost_total in
  let profit := month_revenue - total in
  let margin :=
    if decide (0 < month_revenue) then profit / month_revenue * Qc_of_Z 100 else 0 in
  mret (ProfitRow ym month_revenue total_bean_cost variable_cost_total total profit margin).

Definition profit_report (db : DB) (start_date end_date : date)
    : Py.result (list profit_row) :=
  rows ← execute_query_to_df ConnQuery (Rows (monthly_sales db start_date end_date));
  for_each (fun acc row => r ← profit_of_month db row; mret (acc ++ [r])) rows [].

(** ** Sequences of core operations *)

Inductive operation : Type :=
| PurchaseCreate (purchase_date : date) (origin product : string)
                 (quantity unit_price : Qc) (supplier : string)
| PurchaseEdit (selected_id : Z) (new_date : date) (new_origin new_product : string)
               (new_quantity new_unit_price : Qc) (new_supplier : string)
| PurchaseDelete (selected_id : Z)
| SalesUpload (rows : list upload_row)
| SaleEdit (selected_id : Z) (new_date : date) (new_product : string)
           (new_quantity new_unit_price : Qc) (new_customer : string)
| SaleDelete (selected_id : Z).

(** The row a screen offers under [selected_id]. *)
Definition selected_sale (db : DB) (selected_id : Z) : option Sale.row :=
  head (filter (fun r => Sale.id r = selected_id) (product_sales db)).

Definition step (today : date) (db : DB) (op : operation) : DB :=
  match op with
  | PurchaseCreate d origin product quantity unit_price supplier =>
      btn_purchase d origin product quantity unit_price supplier db
  | PurchaseEdit selected_id d origin product quantity unit_price supplier =>
      purchase_edit_btn selected_id d origin product quantity unit_price supplier db
  | PurchaseDelete selected_id => purchase_delete_btn today selected_id db
  | SalesUpload rows => store (btn_upload_sales rows db)
  | SaleEdit selected_id d product quantity unit_price customer =>
      match selected_sale db selected_id with
      | Some record => sale_edit_btn record d product quantity unit_price customer db
      | None => db
      end
  | SaleDelete selected_id =>
      match selected_sale db selected_id with
      | Some record => sale_delete_btn record db
      | None => db
      end
  end.

Definition run (today : date) (ops : list operation) (db : DB) : DB :=
  foldl (step today) db ops.

(** Ledger consistency of one bean and of the whole store. *)
Definition bean_consistent (db : DB) (origin product : string) : Prop :=
  get_bean_stock db origin product = ledger_sum (inventory_transactions db) origin product.

Definition ledger_consistent (db : DB) : Prop :=
  forall origin product, bean_consistent db origin product.

(** ** Auxiliary measures used in the statements *)

(** The share of one bean in a movement. *)
Definition share (o p o' p' : string) (delta : Qc) : Qc :=
  if decide ((o, p) = (o', p')) then delta else 0.

(** The log rows written after a given state. *)
Definition appended (before after : DB) : list Tx.row :=
  drop (length (inventory_transactions before)) (inventory_transactions after).

(** The log row of one restored and of one deducted recipe line. *)
Definition restore_row (d : date) (ty : transaction_type) (selected_id : Z) (n : note)
    (needed : Qc) (r : BlendRecipe.row) : Tx.row :=
  Tx.Row d ty (BlendRecipe.green_bean_origin r) (BlendRecipe.green_bean_product r)
         (required_qty needed (BlendRecipe.blend_ratio r)) (Some selected_id) n.

Definition deduct_row (d : date) (selected_id : Z) (new_product : string)
    (needed : Qc) (r : BlendRecipe.row) : Tx.row :=
  Tx.Row d sale_edit (BlendRecipe.green_bean_origin r) (BlendRecipe.green_bean_product r)
         (- required_qty needed (BlendRecipe.blend_ratio r)) (Some selected_id)
         (NoteEditDeduct new_product).

(** The log row of one line deducted by the upload. *)
Definition sale_row (d : date) (product : string) (quantity needed : Qc)
    (customer : string) (line : recipe_line) : Tx.row :=
  let '(origin, product_name_bean, ratio) := line in
  Tx.Row d sale origin product_name_bean (- required_qty needed ratio) None
         (NoteSale product quantity needed customer).

Definition movement (t : Tx.row) : string * string * Qc :=
  (Tx.bean_origin t, Tx.bean_product t, Tx.quantity_kg t).

(** ** Worked scenario: a 70/30 house blend *)

Definition house_blend : list recipe_line :=
  [("Brazil", "Santos", Qc_of_Z 70); ("Kenya", "AA", Qc_of_Z 30)].

Definition house_recipes : list BlendRecipe.row :=
  [BlendRecipe.Row "House Blend" "Brazil" "Santos" (Qc_of_Z 70) (Some (Date 2024 1 1));
   BlendRecipe.Row "House Blend" "Kenya" "AA" (Qc_of_Z 30) (Some (Date 2024 1 1))].

Definition house_sale : Sale.row :=
  Sale.Row 1 (Date 2024 2 1) "House Blend" (Qc_of_Z 2) (Qc_of_Z 20000)
           (Qc_of_Z 40000) "Cafe".

(** Five kilograms of each bean in stock, logged as two purchases, and one
    recorded sale of the blend. *)
Definition house_db : DB :=
  mkDB [] {[ ("Brazil", "Santos") := Qc_of_Z 5; ("Kenya", "AA") := Qc_of_Z 5 ]}
       [house_sale] house_recipes [] [] [] []
       [Tx.Row (Date 2024 1 5) bean_purchase "Brazil" "Santos" (Qc_of_Z 5) (Some 1%Z)
               (NotePurchase "Importer");
        Tx.Row (Date 2024 1 5) bean_purchase "Kenya" "AA" (Qc_of_Z 5) (Some 2%Z)
               (NotePurchase "Importer")]
       2 1.

(** ** Worked scenario: three purchases of one bean *)

Definition three_purchases : DB :=
  run (Date 2024 4 1)
      [PurchaseCreate (Date 2024 1 10) "Brazil" "Santos" (Qc_of_Z 10) (Qc_of_Z 100) "Importer";
       PurchaseCreate (Date 2024 2 10) "Brazil" "Santos" (Qc_of_Z 20) (Qc_of_Z 130) "Importer";
       PurchaseCreate (Date 2024 3 10) "Brazil" "Santos" (Qc_of_Z 10) (Qc_of_Z 160) "Importer"]
      empty_db.

(** Column sums as the statements write them. *)
Definition total (xs : list Qc) : Qc := foldr Qcplus 0 xs.

Definition purchase_value (p : Purchase.row) : Qc :=
  Purchase.quantity_kg p * Purchase.unit_price p.

Definition totals_agree (db : DB) : Prop :=
  Forall (fun p => Purchase.total_amount p = purchase_value p) (green_bean_purchases db).

(** ** Worked scenario: two dated BOM assignments *)

(** Master BOM 1 ("X") and master BOM 2 ("Y"), assigned to one active product
    from 2024-01-01 and from 2024-06-01. *)
Definition versions_db : DB :=
  mkDB [] ∅ [] []
       [MasterBomRecipe.Row 1 "Brazil" "Santos" (Qc_of_Z 100);
        MasterBomRecipe.Row 2 "Kenya" "AA" (Qc_of_Z 100)]
       [Product.Row 7 "House Blend" true]
       [BomHistory.Row 7 (Some 1%Z) (Date 2024 1 1);
        BomHistory.Row 7 (Some 2%Z) (Date 2024 6 1)]
       [] [] 0 0.

(** An uploaded sale of ten kilograms of the blend, more than the stock of
    [house_db] covers. *)
Definition big_sale : upload_row :=
  UploadRow (Some (Date 2024 2 10)) (Some "House Blend") (Qc_of_Z 10) (Qc_of_Z 22000) "Cafe".

(** ** Worked scenario: one purchase, then edited, then deleted *)

Definition one_purchase : DB :=
  btn_purchase (Date 2024 1 10) "Brazil" "Santos" (Qc_of_Z 10) (Qc_of_Z 100) "Importer"
               empty_db.

(** The quantity of the purchase corrected from 10 kg to 25 kg. *)
Definition requantified : DB :=
  purchase_edit_btn 1 (Date 2024 1 10) "Brazil" "Santos" (Qc_of_Z 25) (Qc_of_Z 100)
                    "Importer" one_purchase.

(** The bean of the purchase corrected from Brazil Santos to Kenya AA. *)
Definition renamed : DB :=
  purchase_edit_btn 1 (Date 2024 1 10) "Kenya" "AA" (Qc_of_Z 10) (Qc_of_Z 100)
                    "Importer" one_purchase.

Definition renamed_then_deleted : DB :=
  run (Date 2024 4 1)
      [PurchaseCreate (Date 2024 1 10) "Brazil" "Santos" (Qc_of_Z 10) (Qc_of_Z 100) "Importer";
       PurchaseEdit 1 (Date 2024 1 10) "Kenya" "AA" (Qc_of_Z 10) (Qc_of_Z 100) "Importer";
       PurchaseDelete 1]
      empty_db.

(** ** Invariants of the store *)

(** Every purchase on file names a bean that has a balance row. *)
Definition purchases_stocked (db : DB) : Prop :=
  Forall (fun p => is_Some (green_bean_inventory db !! (Purchase.origin p,
                                                         Purchase.product_name p)))
         (green_bean_purchases db).

Definition sound (db : DB) : Prop := ledger_consistent db /\ purchases_stocked db.

(** A purchase edit is tame in a state when the bean it writes has a balance
    row there; any other operation is tame. *)
Definition tame (db : DB) (op : operation) : Prop :=
  match op with
  | PurchaseEdit _ _ new_origin new_product _ _ _ =>
      is_Some (green_bean_inventory db !! (new_origin, new_product))
  | _ => True
  end.

Fixpoint all_tame (today : date) (db : DB) (ops : list operation) : Prop :=
  match ops with
  | [] => True
  | op :: rest => tame db op /\ all_tame today (step today db op) rest
  end.

(** ** Worked scenario: a reformulated blend and a month of sales *)

(** The blend is 70/30 from 2024-01-01 and 50/50 from 2024-06-01; ten
    kilograms are sold on 2024-07-10; a variable cost of 100 per kg is on
    file for May 2024. *)
Definition july_db : DB :=
  mkDB [Purchase.Row 1 (Date 2024 1 10) "Brazil" "Santos" (Qc_of_Z 10) (Qc_of_Z 100)
                     (Qc_of_Z 1000) "Importer";
        Purchase.Row 2 (Date 2024 1 10) "Kenya" "AA" (Qc_of_Z 10) (Qc_of_Z 200)
                     (Qc_of_Z 2000) "Importer"]
       {[ ("Brazil", "Santos") := Qc_of_Z 10; ("Kenya", "AA") := Qc_of_Z 10 ]}
       [Sale.Row 1 (Date 2024 7 10) "House Blend" (Qc_of_Z 10) (Qc_of_Z 20000)
                 (Qc_of_Z 200000) "Cafe"]
       [BlendRecipe.Row "House Blend" "Brazil" "Santos" (Qc_of_Z 70) (Some (Date 2024 1 1));
        BlendRecipe.Row "House Blend" "Kenya" "AA" (Qc_of_Z 30) (Some (Date 2024 1 1));
        BlendRecipe.Row "House Blend" "Brazil" "Santos" (Qc_of_Z 50) (Some (Date 2024 6 1));
        BlendRecipe.Row "House Blend" "Kenya" "AA" (Qc_of_Z 50) (Some (Date 2024 6 1))]
       [] [] [] [VariableCost.Row 2024 5 (Qc_of_Z 100)]
       [Tx.Row (Date 2024 1 10) bean_purchase "Brazil" "Santos" (Qc_of_Z 10) (Some 1%Z)
               (NotePurchase "Importer");
        Tx.Row (Date 2024 1 10) bean_purchase "Kenya" "AA" (Qc_of_Z 10) (Some 2%Z)
               (NotePurchase "Importer")]
       2 1.

(** The same month for a product that has no recipe on file. *)
Definition plain_july_db : DB :=
  mkDB [] ∅
       [Sale.Row 1 (Date 2024 7 10) "Drip Bag" (Qc_of_Z 10) (Qc_of_Z 20000)
                 (Qc_of_Z 200000) "Cafe"]
       [] [] [] [] [VariableCost.Row 2024 5 (Qc_of_Z 100)] [] 0 1.

(** ** Further notions used in the statements *)

(** Purchase ids on file are pairwise distinct and at most the counter. *)
Definition purchase_ids_fresh (db : DB) : Prop :=
  NoDup (Purchase.id <$> green_bean_purchases db) /\
  Forall (fun p => (Purchase.id p <= purchase_seq db)%Z) (green_bean_purchases db).

(** The first row of a list dominates every row of it in the order of a
    nullable date key. *)
Definition head_dominates {A} (key : A -> option date) (l : list A) : Prop :=
  forall h, head l = Some h -> Forall (fun y => null_date_leb (key y) (key h) = true) l.

(** An uploaded row that carries both a date and a product name. *)
Definition complete (row : upload_row) : Prop :=
  is_Some (row_date row) /\ is_Some (row_product row).

Definition is_row_error (m : message) : Prop :=
  match m with
  | RowError _ (Py.UnboundLocalError _) => True
  | _ => False
  end.

(** What the lines of a resolved recipe ask of one bean. *)
Definition line_total (o p : string) (needed : Qc) (recipe : list recipe_line) : Qc :=
  foldr (fun '(o0, p0, ratio) acc => share o0 p0 o p (required_qty needed ratio) + acc)
        0 recipe.

Definition bean_of (line : recipe_line) : string * string := (line.1.1, line.1.2).

(** ** Blend calculator (app.py, 2289-2294) *)

Definition calculator_needed (production_amount : Qc) : Qc :=
  production_amount * ROASTING_LOSS_RATE.

Definition calculator_required_kg (production_amount ratio : Qc) : Qc :=
  (ratio / Qc_of_Z 100) * calculator_needed production_amount.

(** The quantity a sale takes from all beans together. *)
Definition taken (needed : Qc) (recipe : list recipe_line) : Qc :=
  total ((fun line => required_qty needed line.2) <$> recipe).

(** ** Registering a master BOM *)

(** [abs(x)] *)
Definition py_abs (x : Qc) : Qc := if decide (0 <= x) then x else - x.

(** One pass of the loop over the bean inputs of the form: a line is kept when
    its origin and its product are filled in and its ratio is positive. *)
Definition bom_form_step (acc : list recipe_line * Qc) (line : recipe_line)
    : list recipe_line * Qc :=
  let '(blend_data, total_ratio) := acc in
  let '(origin, product, ratio) := line in
  if Py.truthy_str origin && Py.truthy_str product && bool_decide (0 < ratio)
  then (blend_data ++ [(origin, product, ratio)], total_ratio + ratio)
  else (blend_data, total_ratio).

Definition bom_form (lines : list recipe_line) : list recipe_line * Qc :=
  foldl bom_form_step ([], 0) lines.

(** The branch the registration button takes; [Register blend_data] is the
    branch that inserts the BOM and one recipe row per line of [blend_data]. *)
Inductive bom_outcome : Type :=
| BomNameMissing
| RatioSumNot100 (total_ratio : Qc)
| NoBeans
| Register (blend_data : list recipe_line).

Definition btn_register_bom (bom_name : string) (lines : list recipe_line)
    : bom_outcome :=
  let '(blend_data, total_ratio) := bom_form lines in
  if negb (Py.truthy_str bom_name) then BomNameMissing
  else if decide (Q2Qc (1 # 100) < py_abs (total_ratio - Qc_of_Z 100))
       then RatioSumNot100 total_ratio
  else if decide (length blend_data = 0%nat) then NoBeans
  else Register blend_data.

(** A line of the form that the loop keeps. *)
Definition filled_in (line : recipe_line) : Prop :=
  line.1.1 <> "" /\ line.1.2 <> "" /\ 0 < line.2.

#[global] Instance filled_in_dec line : Decision (filled_in line).
Proof. unfold filled_in. apply _. Defined.

(** * The sale handlers in binary floating point

    The quantities the handlers compute and the balances they write are
    Python floats and [REAL] values: IEEE 754 binary64.  Where a property
    turns on the last bit of that arithmetic the rational model above says
    too much, so the sale edit and the sale delete are embedded a second time
    over [float], Rocq's binary64, together with the four tables they touch.
    Dates, names and the selection of the recipe batch are as above. *)

Module F64.

(** The exact value of a finite float. *)
Definition exact (x : float) : option Q :=
  match Prim2SF x with
  | S754_zero _ => Some 0%Q
  | S754_finite s m e =>
      let v := match e with
               | Z0 => inject_Z (Zpos m)
               | Zpos p => inject_Z (Zpos m * Z.pow_pos 2 p)
               | Zneg p => Qmake (Zpos m) (Pos.pow 2 p)
               end in
      Some (if s then Qopp v else v)
  | S754_infinity _ | S754_nan => None
  end.

(** The float nearest to [n / 1000], ties to the even mantissa. *)
Definition of_thousandths (n : Z) : float :=
  match n with
  | Z0 => 0%float
  | Zpos p =>
      SF2Prim (SFdiv prec emax (S754_finite false p 0) (S754_finite false 1000 0))
  | Zneg p =>
      SF2Prim (SFdiv prec emax (S754_finite true p 0) (S754_finite false 1000 0))
  end.

(** [round(x, 3)] on a float: CPython rounds the exact value of [x] to three
    decimals, ties to the even digit, and returns the float nearest to that
    decimal; a result of zero keeps the sign of [x], and an infinity or a NaN
    is returned as it is. *)
Definition round3 (x : float) : float :=
  match exact x with
  | Some q =>
      let n := round_half_even (Q2Qc (q * 1000)) in
      if (n =? 0)%Z then (0 * x)%float else of_thousandths n
  | None => x
  end.

Definition ROASTING_LOSS_RATE : float := 1.2%float.

Definition green_bean_needed (quantity : float) : float :=
  round3 (quantity * ROASTING_LOSS_RATE)%float.

Definition required_qty (needed ratio : float) : float :=
  round3 (needed * (ratio / 100))%float.

(** ** Tables *)

Module Sale.
Record row : Type := Row {
  id : Z;
  sale_date : date;
  product_name : string;
  quantity_kg : float;
  unit_price : float;
  total_amount : float;
  customer : string }.
End Sale.

Module BlendRecipe.
Record row : Type := Row {
  product_name : string;
  green_bean_origin : string;
  green_bean_product : string;
  blend_ratio : float;
  effective_date : option date }.
End BlendRecipe.

Module Tx.
Record row : Type := Row {
  transaction_date : date;
  transaction_type_ : transaction_type;
  bean_origin : string;
  bean_product : string;
  quantity_kg : float;
  reference_id : option Z;
  notes : note }.
End Tx.

(** The tables the sale edit and the sale delete read or write. *)
Record DB : Type := mkDB {
  product_sales : list Sale.row;
  blend_recipes : list BlendRecipe.row;
  green_bean_inventory : gmap (string * string) float;
  inventory_transactions : list Tx.row }.

(** ** Stock ledger helpers (app.py, 244-302) *)

Definition update_green_bean_inventory (origin product : string)
    (quantity_change : float) (db : DB) : DB :=
  let new_stock :=
    match green_bean_inventory db !! (origin, product) with
    | Some current => (current + quantity_change)%float
    | None => quantity_change
    end in
  mkDB (product_sales db) (blend_recipes db)
       (<[(origin, product) := new_stock]> (green_bean_inventory db))
       (inventory_transactions db).

Definition add_inventory_transaction (transaction_date : date)
    (ty : transaction_type) (origin product : string) (quantity_kg : float)
    (reference_id : option Z) (notes : note) (db : DB) : DB :=
  mkDB (product_sales db) (blend_recipes db) (green_bean_inventory db)
       (inventory_transactions db ++
          [Tx.Row transaction_date ty origin product quantity_kg reference_id notes]).

Definition get_bean_stock (db : DB) (origin product : string) : float :=
  match green_bean_inventory db !! (origin, product) with
  | Some current => current
  | None => 0%float
  end.

(** ** Sale edit and delete (app.py, 1810-1942) *)

(** [... FROM blend_recipes WHERE product_name = ?
     AND (effective_date IS NULL OR effective_date <= ?)
     ORDER BY effective_date DESC] *)
Definition select_blend_recipes_upto (db : DB) (product_name : string)
    (sale_date : date) : list BlendRecipe.row :=
  order_by_desc BlendRecipe.effective_date
    (filter (fun r => BlendRecipe.product_name r = product_name /\
                      null_date_leb (BlendRecipe.effective_date r) (Some sale_date) = true)
            (blend_recipes db)).

(** The rows of a fetched batch that carry the effective date of its first row. *)
Definition latest_batch (records : list BlendRecipe.row) : list BlendRecipe.row :=
  match records with
  | [] => []
  | r0 :: _ =>
      filter (fun r => BlendRecipe.effective_date r = BlendRecipe.effective_date r0)
             records
  end.

(** One ledger movement: the balance upsert followed by its log row. *)
Definition apply_delta (transaction_date : date) (ty : transaction_type)
    (origin product : string) (delta : float) (reference_id : option Z) (notes : note)
    (db : DB) : DB :=
  add_inventory_transaction transaction_date ty origin product delta reference_id notes
    (update_green_bean_inventory origin product delta db).

Definition restore_all (transaction_date : date) (ty : transaction_type)
    (selected_id : Z) (notes : note) (needed : float)
    (recipe : list BlendRecipe.row) (db : DB) : DB :=
  foldl (fun acc r =>
           let restore_qty := required_qty needed (BlendRecipe.blend_ratio r) in
           apply_delta transaction_date ty (BlendRecipe.green_bean_origin r)
             (BlendRecipe.green_bean_product r) restore_qty (Some selected_id) notes acc)
        db recipe.

Definition deduct_edit (new_date : date) (selected_id : Z) (new_product : string)
    (needed : float) (recipe : list BlendRecipe.row) (db : DB) : DB :=
  foldl (fun acc r =>
           let deduct_qty := required_qty needed (BlendRecipe.blend_ratio r) in
           apply_delta new_date sale_edit (BlendRecipe.green_bean_origin r)
             (BlendRecipe.green_bean_product r) (- deduct_qty)%float (Some selected_id)
             (NoteEditDeduct new_product) acc)
        db recipe.

Definition sale_edit_btn (record : Sale.row) (new_date : date) (new_product : string)
    (new_quantity new_unit_price : float) (new_customer : string) (db : DB) : DB :=
  if Py.truthy_str new_product && (0 <? new_quantity)%float
     && (0 <? new_unit_price)%float
  then
    let selected_id := Sale.id record in
    let old_recipe :=
      latest_batch (select_blend_recipes_upto db (Sale.product_name record)
                                              (Sale.sale_date record)) in
    let old_green_bean_needed := green_bean_needed (Sale.quantity_kg record) in
    let restored :=
      restore_all new_date sale_edit selected_id
        (NoteEditRestore (Sale.product_name record)) old_green_bean_needed
        old_recipe db in
    let new_recipe :=
      latest_batch (select_blend_recipes_upto restored new_product new_date) in
    let new_green_bean_needed := green_bean_needed new_quantity in
    let deducted :=
      deduct_edit new_date selected_id new_product new_green_bean_needed
        new_recipe restored in
    let new_total := (new_quantity * new_unit_price)%float in
    mkDB ((fun r =>
             if bool_decide (Sale.id r = selected_id)
             then Sale.Row selected_id new_date new_product new_quantity
                    new_unit_price new_total new_customer
             else r) <$> product_sales deducted)
         (blend_recipes deducted) (green_bean_inventory deducted)
         (inventory_transactions deducted)
  else db.

Definition sale_delete_btn (record : Sale.row) (db : DB) : DB :=
  let selected_id := Sale.id record in
  let recipe :=
    latest_batch (select_blend_recipes_upto db (Sale.product_name record)
                                            (Sale.sale_date record)) in
  let restored :=
    restore_all (Sale.sale_date record) sale_delete selected_id
      (NoteSaleDelete (Sale.product_name record))
      (green_bean_needed (Sale.quantity_kg record)) recipe db in
  mkDB (filter (fun r => Sale.id r <> selected_id) (product_sales restored))
       (blend_recipes restored) (green_bean_inventory restored)
       (inventory_transactions restored).

(** The bean a recipe row names. *)
Definition bean_of (r : BlendRecipe.row) : string * string :=
  (BlendRecipe.green_bean_origin r, BlendRecipe.green_bean_product r).

End F64.

(** ** Worked scenario in binary64: five kilograms sold, five in stock *)




(** An uploaded sale of one kilogram of the blend, which the stock of
    [house_db] covers. *)
Definition one_kilo_sale : upload_row :=
  UploadRow (Some (Date 2024 2 10)) (Some "House Blend") (Qc_of_Z 1) (Qc_of_Z 22000) "Cafe".

(** ** Worked scenario: purchases of two beans, one after the cutoff *)


(** * Properties *)

(** ** Rational arithmetic on concrete values *)

Lemma Qc_eq_bool (x y : Qc) : Qeq_bool x y = true -> x = y.
Proof. intros H. apply Qc_is_canon. by apply Qeq_bool_eq. Qed.

Lemma Qc_neq_bool (x y : Qc) : Qeq_bool x y = false -> x <> y.
Proof.
  intros H ->. rewrite (proj2 (Qeq_bool_iff y y)) in H; [discriminate | reflexivity].
Qed.

Ltac qc_compute :=
  first [ apply Qc_eq_bool; vm_compute; reflexivity
        | apply Qc_neq_bool; vm_compute; reflexivity ].

Ltac decide_compute := apply (bool_decide_unpack _); vm_compute; exact I.

(** ** What the ledger helpers leave alone *)

Lemma apply_delta_blend_recipes d ty o p delta r n db :
  blend_recipes (apply_delta d ty o p delta r n db) = blend_recipes db.
Proof. unfold apply_delta, update_green_bean_inventory. by destruct (_ !! _). Qed.

Lemma apply_delta_transactions d ty o p delta r n db :
  inventory_transactions (apply_delta d ty o p delta r n db) =
  inventory_transactions db ++ [Tx.Row d ty o p delta r n].
Proof. unfold apply_delta, update_green_bean_inventory. by destruct (_ !! _). Qed.

Lemma apply_delta_purchases d ty o p delta r n db :
  green_bean_purchases (apply_delta d ty o p delta r n db) = green_bean_purchases db.
Proof. unfold apply_delta, update_green_bean_inventory. by destruct (_ !! _). Qed.

Lemma apply_delta_inventory d ty o p delta r n db :
  green_bean_inventory (apply_delta d ty o p delta r n db) =
  <[(o, p) := get_bean_stock db o p + delta]> (green_bean_inventory db).
Proof.
  unfold apply_delta, update_green_bean_inventory, get_bean_stock.
  destruct (_ !! _); simpl; [done |]. by rewrite Qcplus_0_l.
Qed.

Lemma apply_delta_stock d ty o p delta r n db o' p' :
  get_bean_stock (apply_delta d ty o p delta r n db) o' p' =
  get_bean_stock db o' p' + share o p o' p' delta.
Proof.
  unfold get_bean_stock at 1. rewrite apply_delta_inventory. unfold share.
  destruct (decide ((o, p) = (o', p'))) as [[= <- <-] | Hne].
  - by rewrite lookup_insert_eq.
  - rewrite lookup_insert_ne; [| done]. unfold get_bean_stock. ring.
Qed.

Lemma tx_of_bean_spec o p o' p' d ty delta r n :
  tx_of_bean o' p' (Tx.Row d ty o p delta r n) = bool_decide ((o, p) = (o', p')).
Proof.
  unfold tx_of_bean; simpl.
  destruct (decide (o = o')) as [-> | Ho], (decide (p = p')) as [-> | Hp].
  - by rewrite !bool_decide_eq_true_2.
  - rewrite (bool_decide_eq_false_2 (p = p')); [| done].
    rewrite andb_false_r. symmetry. apply bool_decide_eq_false_2. congruence.
  - rewrite (bool_decide_eq_false_2 (o = o')); [| done].
    symmetry. apply bool_decide_eq_false_2. congruence.
  - rewrite (bool_decide_eq_false_2 (o = o')); [| done].
    symmetry. apply bool_decide_eq_false_2. congruence.
Qed.

Lemma ledger_sum_app txs txs' o p :
  ledger_sum (txs ++ txs') o p = ledger_sum txs o p + ledger_sum txs' o p.
Proof.
  induction txs as [| t txs IH]; simpl.
  - by rewrite Qcplus_0_l.
  - rewrite IH. destruct (tx_of_bean o p t); ring.
Qed.

Lemma ledger_sum_row o p o' p' d ty delta r n :
  ledger_sum [Tx.Row d ty o p delta r n] o' p' = share o p o' p' delta.
Proof.
  unfold ledger_sum, share; simpl. rewrite tx_of_bean_spec.
  destruct (decide ((o, p) = (o', p'))).
  - rewrite bool_decide_eq_true_2; [ring | done].
  - by rewrite bool_decide_eq_false_2.
Qed.

(** Every movement made through the two helpers keeps balance and log in step. *)
Lemma apply_delta_consistent d ty o p delta r n db :
  ledger_consistent db -> ledger_consistent (apply_delta d ty o p delta r n db).
Proof.
  intros H o' p'. unfold bean_consistent.
  rewrite apply_delta_stock, apply_delta_transactions, ledger_sum_app, ledger_sum_row.
  by rewrite (H o' p').
Qed.

(** ** The two phases of a sale edit *)

Lemma select_blend_recipes_upto_ext db db' name d :
  blend_recipes db = blend_recipes db' ->
  select_blend_recipes_upto db name d = select_blend_recipes_upto db' name d.
Proof. unfold select_blend_recipes_upto. by intros ->. Qed.

Section Movements.
Variables (d : date) (ty : transaction_type) (selected_id : Z) (n : note) (needed : Qc).

Lemma restore_all_blend_recipes recipe db :
  blend_recipes (restore_all d ty selected_id n needed recipe db) = blend_recipes db.
Proof.
  revert db. induction recipe as [| r recipe IH]; intros db; simpl; [done |].
  unfold restore_all in *. simpl. by rewrite IH, apply_delta_blend_recipes.
Qed.

Lemma restore_all_transactions recipe db :
  inventory_transactions (restore_all d ty selected_id n needed recipe db) =
  inventory_transactions db ++ (restore_row d ty selected_id n needed <$> recipe).
Proof.
  revert db. induction recipe as [| r recipe IH]; intros db; simpl.
  - by rewrite app_nil_r.
  - unfold restore_all in *. simpl.
    by rewrite IH, apply_delta_transactions, <- app_assoc.
Qed.

Lemma restore_all_consistent recipe db :
  ledger_consistent db ->
  ledger_consistent (restore_all d ty selected_id n needed recipe db).
Proof.
  revert db. induction recipe as [| r recipe IH]; intros db H; [done |].
  unfold restore_all in *. simpl. by apply IH, apply_delta_consistent.
Qed.
End Movements.

Section Deductions.
Variables (d : date) (selected_id : Z) (new_product : string) (needed : Qc).

Lemma deduct_edit_transactions recipe db :
  inventory_transactions (deduct_edit d selected_id new_product needed recipe db) =
  inventory_transactions db ++ (deduct_row d selected_id new_product needed <$> recipe).
Proof.
  revert db. induction recipe as [| r recipe IH]; intros db; simpl.
  - by rewrite app_nil_r.
  - unfold deduct_edit in *. simpl.
    by rewrite IH, apply_delta_transactions, <- app_assoc.
Qed.

Lemma deduct_edit_consistent recipe db :
  ledger_consistent db ->
  ledger_consistent (deduct_edit d selected_id new_product needed recipe db).
Proof.
  revert db. induction recipe as [| r recipe IH]; intros db H; [done |].
  unfold deduct_edit in *. simpl. by apply IH, apply_delta_consistent.
Qed.
End Deductions.

Lemma appended_app db db' rows :
  inventory_transactions db' = inventory_transactions db ++ rows ->
  appended db db' = rows.
Proof. unfold appended. intros ->. by rewrite drop_app_length. Qed.

Lemma sale_edit_restore_transactions record new_date db :
  inventory_transactions (sale_edit_restore record new_date db) =
  inventory_transactions db ++
    (restore_row new_date sale_edit (Sale.id record)
       (NoteEditRestore (Sale.product_name record))
       (green_bean_needed (Sale.quantity_kg record)) <$>
     latest_batch (select_blend_recipes_upto db (Sale.product_name record)
                     (Sale.sale_date record))).
Proof. unfold sale_edit_restore. apply restore_all_transactions. Qed.

Lemma sale_edit_restore_blend_recipes record new_date db :
  blend_recipes (sale_edit_restore record new_date db) = blend_recipes db.
Proof. unfold sale_edit_restore. apply restore_all_blend_recipes. Qed.

Lemma sale_edit_deduct_transactions record new_date new_product new_quantity db :
  inventory_transactions (sale_edit_deduct record new_date new_product new_quantity db) =
  inventory_transactions db ++
    (deduct_row new_date (Sale.id record) new_product (green_bean_needed new_quantity) <$>
     latest_batch (select_blend_recipes_upto db new_product new_date)).
Proof. unfold sale_edit_deduct. apply deduct_edit_transactions. Qed.

Lemma sale_edit_btn_transactions record new_date new_product new_quantity
    new_unit_price new_customer db :
  inventory_transactions
    (sale_edit_btn record new_date new_product new_quantity new_unit_price
                   new_customer db) =
  inventory_transactions db ++
    if required_fields [new_product] [new_quantity; new_unit_price] then
      (restore_row new_date sale_edit (Sale.id record)
         (NoteEditRestore (Sale.product_name record))
         (green_bean_needed (Sale.quantity_kg record)) <$>
       latest_batch (select_blend_recipes_upto db (Sale.product_name record)
                       (Sale.sale_date record))) ++
      (deduct_row new_date (Sale.id record) new_product (green_bean_needed new_quantity) <$>
       latest_batch (select_blend_recipes_upto db new_product new_date))
    else [].
Proof.
  unfold sale_edit_btn. destruct (required_fields _ _); [| by rewrite app_nil_r].
  simpl. rewrite sale_edit_deduct_transactions, sale_edit_restore_transactions.
  rewrite (select_blend_recipes_upto_ext _ db _ _
             (sale_edit_restore_blend_recipes record new_date db)).
  by rewrite <- app_assoc.
Qed.

(** C10. Every log row a sale edit appends, the positive rows of the reversal
    and the negative rows of the reapplication alike, carries the edited sale
    date; when that date differs from the original one, no appended row is
    dated with the original. *)
Theorem sale_edit_rows_carry_new_date
    (record : Sale.row) (new_date : date) (new_product : string)
    (new_quantity new_unit_price : Qc) (new_customer : string) (db : DB) :
  let db' := sale_edit_btn record new_date new_product new_quantity new_unit_price
                           new_customer db in
  inventory_transactions db' = inventory_transactions db ++ appended db db' /\
  Forall (fun t => Tx.transaction_date t = new_date) (appended db db') /\
  (new_date <> Sale.sale_date record ->
   Forall (fun t => Tx.transaction_date t <> Sale.sale_date record) (appended db db')).
Proof.
  intros db'.
  pose proof (sale_edit_btn_transactions record new_date new_product new_quantity
                new_unit_price new_customer db) as Htx.
  fold db' in Htx. rewrite (appended_app _ _ _ Htx).
  assert (Hall : Forall (fun t => Tx.transaction_date t = new_date)
            (if required_fields [new_product] [new_quantity; new_unit_price] then
               (restore_row new_date sale_edit (Sale.id record)
                  (NoteEditRestore (Sale.product_name record))
                  (green_bean_needed (Sale.quantity_kg record)) <$>
                latest_batch (select_blend_recipes_upto db (Sale.product_name record)
                                (Sale.sale_date record))) ++
               (deduct_row new_date (Sale.id record) new_product
                  (green_bean_needed new_quantity) <$>
                latest_batch (select_blend_recipes_upto db new_product new_date))
             else [])).
  { destruct (required_fields _ _); [| constructor].
    apply Forall_app; split; apply Forall_fmap, Forall_forall; by intros. }
  split; [done |]. split; [done |].
  intros Hne. revert Hall. apply Forall_impl. intros t Ht. by rewrite Ht.
Qed.

Lemma sale_edit_rows_carry_new_date_witness :
  Date 2024 3 1 <> Sale.sale_date house_sale /\
  Forall (fun t => Tx.transaction_date t <> Sale.sale_date house_sale)
         (appended house_db
            (sale_edit_btn house_sale (Date 2024 3 1) "House Blend" (Qc_of_Z 3)
                           (Qc_of_Z 20000) "Cafe" house_db)).
Proof.
  assert (H : Date 2024 3 1 <> Sale.sale_date house_sale) by discriminate.
  split; [exact H |].
  exact (proj2 (proj2 (sale_edit_rows_carry_new_date house_sale (Date 2024 3 1)
                         "House Blend" (Qc_of_Z 3) (Qc_of_Z 20000) "Cafe" house_db)) H).
Defined.

(** ** The sale handlers in binary64 *)

Lemma truthy_str_spec s : Py.truthy_str s = true <-> s <> "".
Proof.
  unfold Py.truthy_str. rewrite negb_true_iff. apply String.eqb_neq.
Qed.


(** A loop that moves, for every row of a recipe, a quantity computed from the
    row; the restore loops and the deduct loop are instances. *)
Section F64Loop.
Variables (d : date) (ty : transaction_type) (reference : option Z) (n : note).
Variable qty : F64.BlendRecipe.row -> float.



End F64Loop.




(** ** Consumption arithmetic *)

Lemma deduct_all_transactions d product quantity needed customer recipe db :
  inventory_transactions (deduct_all d product quantity needed customer recipe db) =
  inventory_transactions db ++ (sale_row d product quantity needed customer <$> recipe).
Proof.
  revert db. induction recipe as [| [[o p] ratio] recipe IH]; intros db; simpl.
  - by rewrite app_nil_r.
  - unfold deduct_all in *. simpl.
    by rewrite IH, apply_delta_transactions, <- app_assoc.
Qed.

Lemma deduct_all_consistent d product quantity needed customer recipe db :
  ledger_consistent db ->
  ledger_consistent (deduct_all d product quantity needed customer recipe db).
Proof.
  revert db. induction recipe as [| [[o p] ratio] recipe IH]; intros db H; [done |].
  unfold deduct_all in *. simpl. by apply IH, apply_delta_consistent.
Qed.

(** ** Weighted-average purchase price *)

Lemma total_amount_is_value rows :
  Forall (fun p => Purchase.total_amount p = purchase_value p) rows ->
  Purchase.total_amount <$> rows = purchase_value <$> rows.
Proof.
  induction 1 as [| p rows Hp _ IH]; [done |]. rewrite !fmap_cons. by rewrite Hp, IH.
Qed.

Lemma Forall_filter_keep {A} (P Q : A -> Prop) `{!forall x, Decision (Q x)} (l : list A) :
  Forall P l -> Forall P (filter Q l).
Proof.
  induction 1 as [| x l Hx _ IH]; [constructor |].
  rewrite filter_cons. case_decide; [by constructor | done].
Qed.

Lemma purchases_upto_totals db origin product_name cutoff :
  totals_agree db ->
  Forall (fun p => Purchase.total_amount p = purchase_value p)
         (purchases_upto db origin product_name cutoff).
Proof.
  intros H. unfold purchases_upto, purchases_of. by apply Forall_filter_keep, Forall_filter_keep.
Qed.

Lemma sql_sum_total xs : xs <> [] -> sql_sum xs = Some (total xs).
Proof. by destruct xs. Qed.




(** ** The recipe resolver under a supplied date *)

Lemma get_product_bom_dated db product_name d :
  get_product_bom db product_name (Some d) =
  Py.Raise (Py.UnboundLocalError
              (match select_product_id db product_name with
               | Some _ => "bom_result"
               | None => "all_recipes"
               end)).
Proof. unfold get_product_bom. by destruct (select_product_id db product_name). Qed.

(** C2. With assignment X effective 2024-01-01 and Y effective 2024-06-01 the
    dated statement the resolver executes selects X for 2024-03-01, Y for
    2024-07-01 and nothing for 2023-01-01, yet the resolver returns no lines
    for any of the three dates: it raises on the unbound [bom_result], and on
    the unbound [all_recipes] for a name that is not a registered product. *)
Theorem get_product_bom_raises_when_dated :
  select_bom_history_upto versions_db 7 (Date 2024 3 1) =
    Some (BomHistory.Row 7 (Some 1%Z) (Date 2024 1 1)) /\
  select_bom_history_upto versions_db 7 (Date 2024 7 1) =
    Some (BomHistory.Row 7 (Some 2%Z) (Date 2024 6 1)) /\
  select_bom_history_upto versions_db 7 (Date 2023 1 1) = None /\
  get_product_bom versions_db "House Blend" (Some (Date 2024 3 1)) =
    Py.Raise (Py.UnboundLocalError "bom_result") /\
  get_product_bom versions_db "House Blend" (Some (Date 2024 7 1)) =
    Py.Raise (Py.UnboundLocalError "bom_result") /\
  get_product_bom versions_db "House Blend" (Some (Date 2023 1 1)) =
    Py.Raise (Py.UnboundLocalError "bom_result") /\
  get_product_bom house_db "House Blend" (Some (Date 2024 3 1)) =
    Py.Raise (Py.UnboundLocalError "all_recipes").
Proof. repeat split; vm_compute; reflexivity. Qed.

(** ** The sales upload *)

Lemma upload_sales_row_store st idx row :
  store (upload_sales_row st idx row) = store st.
Proof.
  unfold upload_sales_row. destruct (row_date row), (row_product row); try done.
  by rewrite get_product_bom_dated.
Qed.

Lemma btn_upload_sales_store rows db : store (btn_upload_sales rows db) = db.
Proof.
  unfold btn_upload_sales.
  enough (H : forall acc,
             store (fst (foldl (fun '(st, idx) row =>
                                  (upload_sales_row st idx row, (idx + 1)%Z)) acc rows)) =
             store (fst acc)) by apply (H (Upload db 0 0 [], 0%Z)).
  induction rows as [| row rows IH]; intros [st idx]; simpl; [done |].
  rewrite IH. simpl. apply upload_sales_row_store.
Qed.

(** The loop body below the lookup does keep a short sale out of the stock:
    the balances and the log stay, the sale row is inserted, and the warning
    lists every short bean with its required and its current quantity. *)
Lemma record_sale_shortage line d product quantity unit_price total_ customer recipe st :
  insufficient_beans (store st) (green_bean_needed quantity) recipe <> [] ->
  let st' := record_sale line d product quantity unit_price total_ customer recipe st in
  green_bean_inventory (store st') = green_bean_inventory (store st) /\
  inventory_transactions (store st') = inventory_transactions (store st) /\
  product_sales (store st') =
    product_sales (store st) ++
      [Sale.Row (sale_seq (store st) + 1) d product quantity unit_price total_ customer] /\
  warning_messages st' =
    warning_messages st ++
      [Shortage line product quantity
         (insufficient_beans (store st) (green_bean_needed quantity) recipe)].
Proof.
  intros Hshort. unfold record_sale.
  destruct recipe as [| l recipe]; [done |].
  destruct (insufficient_beans _ _ _) as [| b short] eqn:E; [done |]. by simpl.
Qed.

(** C3. An uploaded sale of ten kilograms of the 70/30 blend against five
    kilograms of each bean: the body of the loop would insert the sale and
    warn of both beans, but the handler reaches neither; the lookup raises,
    the row is counted as failed, no sale row is inserted and the only
    message is the error. *)
Theorem upload_drops_short_sale :
  let done := btn_upload_sales [big_sale] house_db in
  insufficient_beans house_db (green_bean_needed (Qc_of_Z 10)) house_blend <> [] /\
  product_sales (store done) = product_sales house_db /\
  green_bean_inventory (store done) = green_bean_inventory house_db /\
  success_count done = 0%nat /\
  error_count done = 1%nat /\
  warning_messages done = [RowError 2 (Py.UnboundLocalError "all_recipes")].
Proof.
  intros done. split.
  { intros H. apply (f_equal length) in H. vm_compute in H. discriminate. }
  subst done. rewrite btn_upload_sales_store.
  repeat split; vm_compute; reflexivity.
Qed.

(** C6. One kilogram of the 70/30 blend is uploaded against five kilograms of
    each bean.  The loop of the handler would take 0.84 kg and 0.36 kg, which
    is what its arithmetic gives in binary64; the handler never reaches the
    loop, because the recipe lookup raises for the dated row: no balance
    moves, nothing is logged, no sale is recorded, and the row is counted as
    failed. *)
Theorem upload_of_one_kilogram_deducts_nothing :
  let done := btn_upload_sales [one_kilo_sale] house_db in
  F64.required_qty (F64.green_bean_needed 1) 70 = 0.84%float /\
  F64.required_qty (F64.green_bean_needed 1) 30 = 0.36%float /\
  get_bean_stock house_db "Brazil" "Santos" = Qc_of_Z 5 /\
  get_bean_stock house_db "Kenya" "AA" = Qc_of_Z 5 /\
  get_bean_stock (store done) "Brazil" "Santos" = Qc_of_Z 5 /\
  get_bean_stock (store done) "Kenya" "AA" = Qc_of_Z 5 /\
  inventory_transactions (store done) = inventory_transactions house_db /\
  product_sales (store done) = product_sales house_db /\
  success_count done = 0%nat /\
  error_count done = 1%nat /\
  warning_messages done = [RowError 2 (Py.UnboundLocalError "all_recipes")].
Proof.
  intros done. subst done. rewrite btn_upload_sales_store.
  repeat split; vm_compute; reflexivity.
Qed.

(** ** Purchase edits and the ledger *)

Lemma purchase_edit_btn_ledger selected_id d o p q u sup db :
  green_bean_inventory (purchase_edit_btn selected_id d o p q u sup db) =
    green_bean_inventory db /\
  inventory_transactions (purchase_edit_btn selected_id d o p q u sup db) =
    inventory_transactions db.
Proof. unfold purchase_edit_btn. by destruct (required_fields _ _). Qed.

(** C4. A purchase of 10 kg whose quantity is edited to 25 kg, or whose bean is
    edited from Brazil Santos to Kenya AA: the purchase row takes the new
    values, while the balances and the log stay those of the original
    purchase; nothing is taken back from the old bean and nothing is added to
    the new one. *)
Theorem purchase_edit_keeps_stale_stock :
  Purchase.quantity_kg <$> green_bean_purchases requantified = [Qc_of_Z 25] /\
  get_bean_stock one_purchase "Brazil" "Santos" = Qc_of_Z 10 /\
  get_bean_stock requantified "Brazil" "Santos" = Qc_of_Z 10 /\
  (fun r => (Purchase.origin r, Purchase.product_name r)) <$>
    green_bean_purchases renamed = [("Kenya", "AA")] /\
  get_bean_stock renamed "Brazil" "Santos" = Qc_of_Z 10 /\
  get_bean_stock renamed "Kenya" "AA" = 0 /\
  inventory_transactions requantified = inventory_transactions one_purchase /\
  inventory_transactions renamed = inventory_transactions one_purchase.
Proof.
  split; [decide_compute |]. split; [qc_compute |]. split; [qc_compute |].
  split; [vm_compute; reflexivity |]. split; [qc_compute |]. split; [qc_compute |].
  split; apply purchase_edit_btn_ledger.
Qed.

(** C1. Create a purchase of 10 kg of Brazil Santos, edit its bean to Kenya AA,
    delete it: Kenya AA has no balance row, hence stock 0, while its log
    sums to -10; Brazil Santos keeps a balance and a log of 10 with no
    purchase left on file.  The ledger is not consistent. *)
Theorem ledger_diverges_after_rename_and_delete :
  green_bean_purchases renamed_then_deleted = [] /\
  green_bean_inventory renamed_then_deleted !! ("Kenya", "AA") = None /\
  get_bean_stock renamed_then_deleted "Kenya" "AA" = 0 /\
  ledger_sum (inventory_transactions renamed_then_deleted) "Kenya" "AA" = Qc_of_Z (-10) /\
  get_bean_stock renamed_then_deleted "Brazil" "Santos" = Qc_of_Z 10 /\
  ~ ledger_consistent renamed_then_deleted.
Proof.
  split; [vm_compute; reflexivity |]. split; [vm_compute; reflexivity |].
  split; [qc_compute |]. split; [qc_compute |]. split; [qc_compute |].
  intros H. specialize (H "Kenya" "AA"). revert H. unfold bean_consistent. qc_compute.
Qed.

(** ** The monthly profit report *)

Lemma bean_line_cost_raises db ym needed acc bean_row :
  bean_line_cost db ym needed acc bean_row = Py.Raise (Py.TypeError params_bound_twice).
Proof. done. Qed.

Lemma for_each_bean_lines db ym needed recipe acc :
  for_each (bean_line_cost db ym needed) recipe acc =
  match recipe with
  | [] => Py.Ok acc
  | _ :: _ => Py.Raise (Py.TypeError params_bound_twice)
  end.
Proof. by destruct recipe. Qed.

Lemma for_each_products db ym sold acc :
  for_each (product_bean_cost db ym) sold acc = Py.Ok acc \/
  for_each (product_bean_cost db ym) sold acc = Py.Raise (Py.TypeError params_bound_twice).
Proof.
  revert acc. induction sold as [| [product qty] sold IH]; intros acc; [by left |].
  simpl. change (execute_query_to_df ConnQuery (Rows (report_recipe db product)))
    with (Py.Ok (report_recipe db product)).
  simpl. rewrite for_each_bean_lines.
  destruct (report_recipe db product); simpl; [apply IH | by right].
Qed.

(** No month of the report is ever computed. *)
Lemma profit_of_month_raises db row :
  profit_of_month db row = Py.Raise (Py.TypeError params_bound_twice).
Proof.
  destruct row as [[ym month_revenue] sales_qty]. unfold profit_of_month.
  change (execute_query_to_df ConnQuery (Rows (month_sales db ym)))
    with (Py.Ok (month_sales db ym)).
  simpl. by destruct (for_each_products db ym (month_sales db ym) 0) as [-> | ->].
Qed.

Lemma profit_report_raises db start_date end_date :
  monthly_sales db start_date end_date <> [] ->
  profit_report db start_date end_date = Py.Raise (Py.TypeError params_bound_twice).
Proof.
  intros H. unfold profit_report.
  change (execute_query_to_df ConnQuery (Rows (monthly_sales db start_date end_date)))
    with (Py.Ok (monthly_sales db start_date end_date)).
  simpl. destruct (monthly_sales db start_date end_date) as [| row rows]; [done |].
  simpl. by rewrite profit_of_month_raises.
Qed.

(** C8. Ten kilograms of a blend sold on 2024-07-10, the blend being 70/30 from
    2024-01-01 and 50/50 from 2024-06-01: the snapshot in force on the day of
    the sale is the two lines of 2024-06-01, but the report costs the month
    against all four lines on file, and the call that prices the first line
    raises, so the report of the month returns no bean cost at all. *)
Theorem report_costs_every_recipe_version :
  BlendRecipe.effective_date <$>
    latest_batch (select_blend_recipes_upto july_db "House Blend" (Date 2024 7 10)) =
    [Some (Date 2024 6 1); Some (Date 2024 6 1)] /\
  BlendRecipe.effective_date <$> report_recipe july_db "House Blend" =
    [Some (Date 2024 1 1); Some (Date 2024 1 1);
     Some (Date 2024 6 1); Some (Date 2024 6 1)] /\
  fst <$> month_sales july_db (2024, 7)%nat = ["House Blend"] /\
  profit_report july_db (Date 2024 7 1) (Date 2024 7 31) =
    Py.Raise (Py.TypeError params_bound_twice).
Proof.
  split; [vm_compute; reflexivity |]. split; [vm_compute; reflexivity |].
  split; [vm_compute; reflexivity |].
  apply profit_report_raises. intros H. apply (f_equal length) in H.
  vm_compute in H. discriminate.
Qed.

(** C9. Ten kilograms sold in July 2024 with a variable cost of 100 per kg on
    file for May 2024: the report does not return 1000 for the month; the
    call that reads the rate raises before any statement runs, and the
    statement itself names a column the table does not have, so even a
    well-formed call would read no row and charge zero. *)
Theorem report_never_charges_variable_cost :
  VariableCost.cost_per_kg <$> variable_costs plain_july_db = [Qc_of_Z 100] /\
  (fun row => snd row) <$> monthly_sales plain_july_db (Date 2024 7 1) (Date 2024 7 31) =
    [Qc_of_Z 10] /\
  profit_report plain_july_db (Date 2024 7 1) (Date 2024 7 31) =
    Py.Raise (Py.TypeError params_bound_twice) /\
  execute_query_to_df ConnQuery (variable_cost_query plain_july_db (Date 2024 7 1)) =
    Py.Ok [].
Proof.
  split; [decide_compute |]. split; [decide_compute |]. split; [| done].
  apply profit_report_raises. intros H. apply (f_equal length) in H.
  vm_compute in H. discriminate.
Qed.

(** ** Where the ledger does stay consistent *)

Lemma apply_delta_sound d ty o p delta r n db :
  sound db -> sound (apply_delta d ty o p delta r n db).
Proof.
  intros [Hc Hs]. split; [by apply apply_delta_consistent |].
  unfold purchases_stocked in *. rewrite apply_delta_purchases, apply_delta_inventory.
  revert Hs. apply Forall_impl. intros row Hrow.
  destruct (decide ((o, p) = (Purchase.origin row, Purchase.product_name row))) as [<- | Hne].
  - rewrite lookup_insert_eq. by eexists.
  - by rewrite lookup_insert_ne.
Qed.

Lemma restore_all_sound d ty selected_id n needed recipe db :
  sound db -> sound (restore_all d ty selected_id n needed recipe db).
Proof.
  revert db. induction recipe as [| r recipe IH]; intros db H; [done |].
  unfold restore_all in *. simpl. by apply IH, apply_delta_sound.
Qed.

Lemma deduct_edit_sound d selected_id new_product needed recipe db :
  sound db -> sound (deduct_edit d selected_id new_product needed recipe db).
Proof.
  revert db. induction recipe as [| r recipe IH]; intros db H; [done |].
  unfold deduct_edit in *. simpl. by apply IH, apply_delta_sound.
Qed.

Lemma set_sales_sound f db : sound db -> sound (set_sales f db).
Proof. done. Qed.

Lemma btn_purchase_sound d o p q u sup db :
  sound db -> sound (btn_purchase d o p q u sup db).
Proof.
  intros [Hc Hs]. unfold btn_purchase. destruct (required_fields _ _); [| done].
  set (inserted := bump_purchase_seq _).
  assert (Hins : ledger_consistent inserted) by exact Hc.
  split; [by apply apply_delta_consistent |].
  unfold purchases_stocked. rewrite apply_delta_purchases, apply_delta_inventory.
  subst inserted. simpl. apply Forall_app. split.
  - revert Hs. apply Forall_impl. intros row Hrow.
    destruct (decide ((o, p) = (Purchase.origin row, Purchase.product_name row)))
      as [<- | Hne].
    + rewrite lookup_insert_eq. by eexists.
    + by rewrite lookup_insert_ne.
  - constructor; [| constructor]. simpl. rewrite lookup_insert_eq. by eexists.
Qed.

Lemma purchase_edit_btn_sound selected_id d o p q u sup db :
  is_Some (green_bean_inventory db !! (o, p)) ->
  sound db -> sound (purchase_edit_btn selected_id d o p q u sup db).
Proof.
  intros Hop [Hc Hs]. unfold purchase_edit_btn.
  destruct (required_fields _ _); [| done]. split; [exact Hc |].
  unfold purchases_stocked in *. simpl. apply Forall_fmap.
  revert Hs. apply Forall_impl. intros row Hrow. simpl. by case_bool_decide.
Qed.

Lemma purchase_delete_btn_sound today selected_id db :
  sound db -> sound (purchase_delete_btn today selected_id db).
Proof.
  intros [Hc Hs]. unfold purchase_delete_btn.
  destruct (head _) as [row |] eqn:Hhead; [| done].
  assert (Hin : row ∈ green_bean_purchases db).
  { apply head_Some_elem_of in Hhead. by apply list_elem_of_filter in Hhead as [_ ?]. }
  unfold purchases_stocked in Hs. pose proof Hs as Hall.
  rewrite list.Forall_forall in Hall. destruct (Hall row Hin) as [current Hcur].
  split.
  - intros o' p'. unfold bean_consistent, get_bean_stock. simpl.
    rewrite ledger_sum_app, ledger_sum_row. unfold share.
    specialize (Hc o' p'). unfold bean_consistent, get_bean_stock in Hc.
    destruct (decide ((Purchase.origin row, Purchase.product_name row) = (o', p')))
      as [[= <- <-] | Hne].
    + rewrite lookup_alter_eq, Hcur. simpl. rewrite Hcur in Hc. rewrite <- Hc. ring.
    + rewrite lookup_alter_ne by done. rewrite Hc. ring.
  - unfold purchases_stocked. simpl. apply Forall_filter_keep.
    revert Hs. apply Forall_impl. intros r [v Hv].
    destruct (decide ((Purchase.origin row, Purchase.product_name row) =
                      (Purchase.origin r, Purchase.product_name r))) as [E | Hne].
    + rewrite <- E, lookup_alter_eq, Hcur. by eexists.
    + rewrite lookup_alter_ne by done. by eexists.
Qed.

Lemma sale_edit_btn_sound record d product q u customer db :
  sound db -> sound (sale_edit_btn record d product q u customer db).
Proof.
  intros H. unfold sale_edit_btn. destruct (required_fields _ _); [| done].
  apply set_sales_sound. unfold sale_edit_deduct, sale_edit_restore.
  by apply deduct_edit_sound, restore_all_sound.
Qed.

Lemma sale_delete_btn_sound record db : sound db -> sound (sale_delete_btn record db).
Proof.
  intros H. unfold sale_delete_btn. apply set_sales_sound. by apply restore_all_sound.
Qed.

Lemma step_sound today db op : sound db -> tame db op -> sound (step today db op).
Proof.
  intros H Ht. destruct op; simpl.
  - by apply btn_purchase_sound.
  - by apply purchase_edit_btn_sound.
  - by apply purchase_delete_btn_sound.
  - by rewrite btn_upload_sales_store.
  - destruct (selected_sale db selected_id); [by apply sale_edit_btn_sound | done].
  - destruct (selected_sale db selected_id); [by apply sale_delete_btn_sound | done].
Qed.

Lemma empty_db_sound : sound empty_db.
Proof. split; [| constructor]. intros o p. by vm_compute. Qed.

(** Balance and log agree after every sequence of core operations in which no
    purchase edit writes a bean that has no balance row. *)
Lemma ledger_consistent_when_tame today ops db :
  sound db -> all_tame today db ops -> ledger_consistent (run today ops db).
Proof.
  revert db. induction ops as [| op ops IH]; intros db H Ht; simpl.
  - by destruct H.
  - destruct Ht as [Hop Hrest]. apply IH; [by apply step_sound | done].
Qed.

(** ** Purchase totals on file *)

Lemma restore_all_purchases d ty selected_id n needed recipe db :
  green_bean_purchases (restore_all d ty selected_id n needed recipe db) =
  green_bean_purchases db.
Proof.
  revert db. induction recipe as [| r recipe IH]; intros db; [done |].
  unfold restore_all in *. simpl. by rewrite IH, apply_delta_purchases.
Qed.

Lemma deduct_edit_purchases d selected_id new_product needed recipe db :
  green_bean_purchases (deduct_edit d selected_id new_product needed recipe db) =
  green_bean_purchases db.
Proof.
  revert db. induction recipe as [| r recipe IH]; intros db; [done |].
  unfold deduct_edit in *. simpl. by rewrite IH, apply_delta_purchases.
Qed.

Lemma step_totals_agree today db op : totals_agree db -> totals_agree (step today db op).
Proof.
  unfold totals_agree. intros H. destruct op; simpl.
  - unfold btn_purchase. destruct (required_fields _ _); [| done].
    rewrite apply_delta_purchases. simpl. apply Forall_app. split; [done |].
    by repeat constructor.
  - unfold purchase_edit_btn. destruct (required_fields _ _); [| done].
    simpl. apply Forall_fmap. revert H. apply Forall_impl. intros row Hrow. simpl.
    by case_bool_decide.
  - unfold purchase_delete_btn. destruct (head _); [| done]. simpl.
    by apply Forall_filter_keep.
  - by rewrite btn_upload_sales_store.
  - destruct (selected_sale db selected_id) as [record |]; [| done].
    unfold sale_edit_btn. destruct (required_fields _ _); [| done]. simpl.
    unfold sale_edit_deduct, sale_edit_restore.
    by rewrite deduct_edit_purchases, restore_all_purchases.
  - destruct (selected_sale db selected_id) as [record |]; [| done].
    unfold sale_delete_btn. simpl. by rewrite restore_all_purchases.
Qed.

(** Every store built by the handlers files each purchase with
    [total_amount = quantity_kg * unit_price]. *)
Lemma run_totals_agree today ops :
  totals_agree (run today ops empty_db).
Proof.
  assert (H : forall db, totals_agree db -> totals_agree (run today ops db)).
  { induction ops as [| op ops IH]; intros db Hdb; [done |].
    simpl. by apply IH, step_totals_agree. }
  apply H. constructor.
Qed.

(** * Further properties of the handlers *)

(** ** The log only grows *)

Lemma step_appends today db op :
  exists rows, inventory_transactions (step today db op) = inventory_transactions db ++ rows.
Proof.
  destruct op; simpl.
  - unfold btn_purchase. destruct (required_fields _ _).
    + rewrite apply_delta_transactions. by eexists.
    + exists []. by rewrite app_nil_r.
  - exists []. rewrite app_nil_r. apply purchase_edit_btn_ledger.
  - unfold purchase_delete_btn. destruct (head _).
    + simpl. by eexists.
    + exists []. by rewrite app_nil_r.
  - exists []. by rewrite btn_upload_sales_store, app_nil_r.
  - destruct (selected_sale db selected_id).
    + rewrite sale_edit_btn_transactions. by eexists.
    + exists []. by rewrite app_nil_r.
  - destruct (selected_sale db selected_id).
    + unfold sale_delete_btn. simpl. rewrite restore_all_transactions. by eexists.
    + exists []. by rewrite app_nil_r.
Qed.

(** X1. The transaction log is append-only: whatever sequence of core
    operations runs, the log it started from is a prefix of the log it ends
    with; no handler rewrites or removes a logged row. *)
Theorem log_is_append_only today ops db :
  inventory_transactions db `prefix_of` inventory_transactions (run today ops db).
Proof.
  revert db. induction ops as [| op ops IH]; intros db; simpl; [done |].
  etrans; [| apply IH]. destruct (step_appends today db op) as [rows ->].
  by apply prefix_app_r.
Qed.

(** ** Purchase ids *)

Lemma step_purchase_ids_fresh today db op :
  purchase_ids_fresh db -> purchase_ids_fresh (step today db op).
Proof.
  intros [Hnd Hle]. destruct op; simpl.
  - unfold btn_purchase. destruct (required_fields _ _); [| done].
    unfold purchase_ids_fresh. rewrite apply_delta_purchases.
    assert (Hseq : purchase_seq (apply_delta purchase_date bean_purchase origin product
                     quantity (Some (purchase_seq db + 1)%Z) (NotePurchase supplier)
                     (bump_purchase_seq (set_purchases
                        (fun rows => rows ++ [Purchase.Row (purchase_seq db + 1)
                           purchase_date origin product quantity unit_price
                           (quantity * unit_price) supplier]) db))) =
                   (purchase_seq db + 1)%Z).
    { unfold apply_delta, update_green_bean_inventory. by destruct (_ !! _). }
    rewrite Hseq. simpl. split.
    + rewrite fmap_app. apply list.NoDup_app. split; [done |]. split.
      * intros x Hx Hin. apply list_elem_of_singleton in Hin. subst x.
        apply list_elem_of_fmap in Hx as [row [Hid Hrow]].
        rewrite list.Forall_forall in Hle. specialize (Hle row Hrow). simpl in Hid. lia.
      * apply NoDup_singleton.
    + apply Forall_app. split.
      * revert Hle. apply Forall_impl. intros row Hrow. lia.
      * constructor; [simpl; lia | constructor].
  - unfold purchase_edit_btn. destruct (required_fields _ _); [| done].
    unfold purchase_ids_fresh. simpl.
    assert (Hids : Purchase.id <$>
              ((fun r => if bool_decide (Purchase.id r = selected_id)
                         then Purchase.Row selected_id new_date new_origin new_product
                                new_quantity new_unit_price
                                (new_quantity * new_unit_price) new_supplier
                         else r) <$> green_bean_purchases db) =
            Purchase.id <$> green_bean_purchases db).
    { rewrite <- list_fmap_compose. apply list_fmap_ext. intros i r _. simpl.
      by case_bool_decide. }
    split; [by rewrite Hids |].
    apply Forall_fmap. revert Hle. apply Forall_impl. intros r Hr. simpl.
    case_bool_decide; simpl; lia.
  - unfold purchase_delete_btn. destruct (head _); [| done].
    unfold purchase_ids_fresh. simpl. split.
    + apply NoDup_fmap_2_strong; [| by apply list.NoDup_filter, (NoDup_fmap_1 Purchase.id)].
      intros x y Hx Hy Hxy. apply list_elem_of_filter in Hx as [_ Hx].
      apply list_elem_of_filter in Hy as [_ Hy].
      apply list_elem_of_lookup in Hx as [i Hi]. apply list_elem_of_lookup in Hy as [j Hj].
      assert (i = j).
      { eapply NoDup_lookup; [exact Hnd | |]; rewrite list_lookup_fmap.
        - by rewrite Hi.
        - rewrite Hj. simpl. by rewrite Hxy. }
      subst j. congruence.
    + by apply Forall_filter_keep.
  - by rewrite btn_upload_sales_store.
  - destruct (selected_sale db selected_id) as [record |]; [| done].
    unfold sale_edit_btn. destruct (required_fields _ _); [| done].
    unfold purchase_ids_fresh. simpl. unfold sale_edit_deduct, sale_edit_restore.
    rewrite deduct_edit_purchases, restore_all_purchases.
    assert (Hseq : forall d ty i n needed recipe db0,
              purchase_seq (restore_all d ty i n needed recipe db0) = purchase_seq db0).
    { intros d ty i n needed recipe. induction recipe as [| r recipe IH]; intros db0; [done |].
      unfold restore_all in *. simpl. rewrite IH.
      unfold apply_delta, update_green_bean_inventory. by destruct (_ !! _). }
    assert (Hseq' : forall d i np needed recipe db0,
              purchase_seq (deduct_edit d i np needed recipe db0) = purchase_seq db0).
    { intros d i np needed recipe. induction recipe as [| r recipe IH]; intros db0; [done |].
      unfold deduct_edit in *. simpl. rewrite IH.
      unfold apply_delta, update_green_bean_inventory. by destruct (_ !! _). }
    by rewrite Hseq', Hseq.
  - destruct (selected_sale db selected_id) as [record |]; [| done].
    unfold sale_delete_btn, purchase_ids_fresh. simpl. rewrite restore_all_purchases.
    assert (Hseq : forall d ty i n needed recipe db0,
              purchase_seq (restore_all d ty i n needed recipe db0) = purchase_seq db0).
    { intros d ty i n needed recipe. induction recipe as [| r recipe IH]; intros db0; [done |].
      unfold restore_all in *. simpl. rewrite IH.
      unfold apply_delta, update_green_bean_inventory. by destruct (_ !! _). }
    by rewrite Hseq.
Qed.

(** X2. In every store the handlers build from the empty one, the purchases on
    file carry pairwise distinct ids, none above the counter: an edit or a
    delete by id addresses at most one purchase. *)
Theorem purchase_ids_stay_distinct today ops :
  NoDup (Purchase.id <$> green_bean_purchases (run today ops empty_db)) /\
  Forall (fun p => (Purchase.id p <= purchase_seq (run today ops empty_db))%Z)
         (green_bean_purchases (run today ops empty_db)).
Proof.
  assert (H : forall db, purchase_ids_fresh db -> purchase_ids_fresh (run today ops db)).
  { induction ops as [| op ops IH]; intros db Hdb; [done |].
    simpl. by apply IH, step_purchase_ids_fresh. }
  apply H. split; [constructor | constructor].
Qed.

(** ** What a purchase entry and a purchase deletion do *)

Lemma filter_drop_all {A} (P : A -> Prop) `{!forall x, Decision (P x)} (l : list A) :
  Forall (fun x => ~ P x) l -> filter P l = [].
Proof.
  induction 1 as [| x l Hx _ IH]; [done |].
  by rewrite filter_cons, decide_False.
Qed.

Lemma required_fields_purchase o p q u :
  required_fields [o; p] [q; u] = true <-> o <> "" /\ p <> "" /\ 0 < q /\ 0 < u.
Proof.
  unfold required_fields, Py.truthy_str. simpl. rewrite !andb_true_r.
  rewrite !andb_true_iff, !negb_true_iff, !bool_decide_eq_true.
  rewrite <- !not_true_iff_false, !String.eqb_eq. tauto.
Qed.

Lemma btn_purchase_cases d o p q u sup db :
  let db' := btn_purchase d o p q u sup db in
  let new_id := (purchase_seq db + 1)%Z in
  (o = "" \/ p = "" \/ q <= 0 \/ u <= 0 -> db' = db) /\
  (o <> "" -> p <> "" -> 0 < q -> 0 < u ->
   green_bean_purchases db' =
     green_bean_purchases db ++ [Purchase.Row new_id d o p q u (q * u) sup] /\
   (forall o' p', get_bean_stock db' o' p' = get_bean_stock db o' p' + share o p o' p' q) /\
   inventory_transactions db' =
     inventory_transactions db ++
       [Tx.Row d bean_purchase o p q (Some new_id) (NotePurchase sup)]).
Proof.
  intros db' new_id. subst db'. unfold btn_purchase.
  pose proof (required_fields_purchase o p q u) as Hrf. split.
  - intros Hbad. destruct (required_fields _ _); [| done].
    destruct (proj1 Hrf eq_refl) as (Ho & Hp & Hq & Hu).
    destruct Hbad as [? | [? | [Hle | Hle]]]; try done.
    + by apply Qcle_not_lt in Hle.
    + by apply Qcle_not_lt in Hle.
  - intros Ho Hp Hq Hu. rewrite (proj2 Hrf) by done.
    rewrite apply_delta_purchases, apply_delta_transactions. split; [done |]. split; [| done].
    intros o' p'. by rewrite apply_delta_stock.
Qed.

(** X3. A purchase entry with an empty origin, an empty product name, or a
    quantity or unit price that is not positive changes nothing.  An accepted
    entry files one purchase under the next id with [total = quantity * price],
    adds the quantity to the stock of that bean and of no other, and logs one
    [bean_purchase] row of that quantity referring to the new id. *)
Theorem btn_purchase_effect d o p q u sup db :
  let db' := btn_purchase d o p q u sup db in
  let new_id := (purchase_seq db + 1)%Z in
  (o = "" \/ p = "" \/ q <= 0 \/ u <= 0 -> db' = db) /\
  (o <> "" -> p <> "" -> 0 < q -> 0 < u ->
   green_bean_purchases db' =
     green_bean_purchases db ++ [Purchase.Row new_id d o p q u (q * u) sup] /\
   (forall o' p', get_bean_stock db' o' p' = get_bean_stock db o' p' + share o p o' p' q) /\
   inventory_transactions db' =
     inventory_transactions db ++
       [Tx.Row d bean_purchase o p q (Some new_id) (NotePurchase sup)]).
Proof. exact (btn_purchase_cases d o p q u sup db). Qed.

Lemma btn_purchase_effect_witness :
  let db' := btn_purchase (Date 2024 1 10) "Brazil" "Santos" (Qc_of_Z 10) (Qc_of_Z 100)
                          "Importer" empty_db in
  green_bean_purchases db' =
    green_bean_purchases empty_db ++
      [Purchase.Row (purchase_seq empty_db + 1) (Date 2024 1 10) "Brazil" "Santos"
                    (Qc_of_Z 10) (Qc_of_Z 100) (Qc_of_Z 10 * Qc_of_Z 100) "Importer"] /\
  btn_purchase (Date 2024 1 10) "" "Santos" (Qc_of_Z 10) (Qc_of_Z 100) "Importer" empty_db =
    empty_db.
Proof.
  split.
  - apply (proj2 (btn_purchase_effect (Date 2024 1 10) "Brazil" "Santos" (Qc_of_Z 10)
                    (Qc_of_Z 100) "Importer" empty_db)); done.
  - apply (proj1 (btn_purchase_effect (Date 2024 1 10) "" "Santos" (Qc_of_Z 10)
                    (Qc_of_Z 100) "Importer" empty_db)). by left.
Defined.

Lemma purchase_delete_btn_cases today selected_id db :
  let db' := purchase_delete_btn today selected_id db in
  (Forall (fun r => Purchase.id r <> selected_id) (green_bean_purchases db) -> db' = db) /\
  (forall row,
     head (filter (fun r => Purchase.id r = selected_id) (green_bean_purchases db)) =
       Some row ->
     green_bean_purchases db' =
       filter (fun r => Purchase.id r <> selected_id) (green_bean_purchases db) /\
     inventory_transactions db' =
       inventory_transactions db ++
         [Tx.Row today purchase_delete (Purchase.origin row) (Purchase.product_name row)
                 (- Purchase.quantity_kg row) (Some selected_id) NotePurchaseDelete] /\
     (forall o' p',
        get_bean_stock db' o' p' =
        get_bean_stock db o' p' +
        match green_bean_inventory db !! (Purchase.origin row, Purchase.product_name row)
        with
        | Some _ => share (Purchase.origin row) (Purchase.product_name row) o' p'
                          (- Purchase.quantity_kg row)
        | None => 0
        end)).
Proof.
  intros db'. subst db'. unfold purchase_delete_btn. split.
  - intros Hnone.
    assert (E : filter (fun r => Purchase.id r = selected_id) (green_bean_purchases db) = []).
    { by apply filter_drop_all. }
    by rewrite E.
  - intros row ->. split; [done |]. split; [done |].
    intros o' p'. unfold get_bean_stock. simpl. unfold share.
    destruct (decide ((Purchase.origin row, Purchase.product_name row) = (o', p')))
      as [E | Hne]; [injection E as <- <- |].
    + rewrite lookup_alter_eq.
      destruct (green_bean_inventory db !! (Purchase.origin row, Purchase.product_name row));
        simpl; ring.
    + rewrite lookup_alter_ne by done.
      destruct (green_bean_inventory db !! (Purchase.origin row, Purchase.product_name row));
        ring.
Qed.

(** X4. Deleting a purchase id that is not on file changes nothing.  Deleting
    a purchase on file removes the rows of that id and logs one
    [purchase_delete] row of minus its quantity dated today; the stock of its
    bean drops by the quantity when the bean has a balance row, and no balance
    moves when it has none. *)
Theorem purchase_delete_btn_effect today selected_id db :
  let db' := purchase_delete_btn today selected_id db in
  (Forall (fun r => Purchase.id r <> selected_id) (green_bean_purchases db) -> db' = db) /\
  (forall row,
     head (filter (fun r => Purchase.id r = selected_id) (green_bean_purchases db)) =
       Some row ->
     green_bean_purchases db' =
       filter (fun r => Purchase.id r <> selected_id) (green_bean_purchases db) /\
     inventory_transactions db' =
       inventory_transactions db ++
         [Tx.Row today purchase_delete (Purchase.origin row) (Purchase.product_name row)
                 (- Purchase.quantity_kg row) (Some selected_id) NotePurchaseDelete] /\
     (forall o' p',
        get_bean_stock db' o' p' =
        get_bean_stock db o' p' +
        match green_bean_inventory db !! (Purchase.origin row, Purchase.product_name row)
        with
        | Some _ => share (Purchase.origin row) (Purchase.product_name row) o' p'
                          (- Purchase.quantity_kg row)
        | None => 0
        end)).
Proof. exact (purchase_delete_btn_cases today selected_id db). Qed.

Lemma purchase_delete_btn_effect_witness :
  green_bean_purchases (purchase_delete_btn (Date 2024 4 1) 1 one_purchase) =
    filter (fun r => Purchase.id r <> 1%Z) (green_bean_purchases one_purchase) /\
  purchase_delete_btn (Date 2024 4 1) 5 one_purchase = one_purchase.
Proof.
  split.
  - eapply (proj2 (purchase_delete_btn_effect (Date 2024 4 1) 1 one_purchase)).
    vm_compute. reflexivity.
  - apply (proj1 (purchase_delete_btn_effect (Date 2024 4 1) 5 one_purchase)).
    apply (bool_decide_unpack _). vm_compute. exact I.
Defined.

Lemma filter_keep_all {A} (P : A -> Prop) `{!forall x, Decision (P x)} (l : list A) :
  Forall P l -> filter P l = l.
Proof.
  induction 1 as [| x l Hx _ IH]; [done |].
  rewrite filter_cons, decide_True by done. by rewrite IH.
Qed.

(** X6. From the empty store, balance and log agree for every bean after every
    sequence of core operations in which no purchase edit writes a bean that
    has no balance row at that moment. *)
Theorem ledger_consistent_from_empty today ops :
  all_tame today empty_db ops -> ledger_consistent (run today ops empty_db).
Proof. apply ledger_consistent_when_tame, empty_db_sound. Qed.

Lemma ledger_consistent_from_empty_witness :
  ledger_consistent
    (run (Date 2024 4 1)
       [PurchaseCreate (Date 2024 1 10) "Brazil" "Santos" (Qc_of_Z 10) (Qc_of_Z 100) "Importer";
        PurchaseEdit 1 (Date 2024 1 12) "Brazil" "Santos" (Qc_of_Z 25) (Qc_of_Z 100) "Importer";
        PurchaseDelete 1]
       empty_db).
Proof.
  apply ledger_consistent_from_empty. simpl. split; [exact I |]. split; [| done].
  vm_compute. by eexists.
Defined.

(** ** What a sale deletion does *)



(** ** Ordering by date *)

Lemma date_leb_spec a b :
  date_leb a b = true <->
  (year a < year b \/
   (year a = year b /\ (month a < month b \/ (month a = month b /\ day a <= day b))))%nat.
Proof.
  unfold date_leb.
  destruct (Nat.ltb_spec (year a) (year b)); [split; [lia | done] |].
  destruct (Nat.ltb_spec (year b) (year a)); [split; [done | lia] |].
  destruct (Nat.ltb_spec (month a) (month b)); [split; [lia | done] |].
  destruct (Nat.ltb_spec (month b) (month a)); [split; [done | lia] |].
  rewrite Nat.leb_le. lia.
Qed.

Lemma date_leb_total a b : date_leb a b = true \/ date_leb b a = true.
Proof. rewrite !date_leb_spec. lia. Qed.

Lemma date_leb_trans a b c :
  date_leb a b = true -> date_leb b c = true -> date_leb a c = true.
Proof. rewrite !date_leb_spec. lia. Qed.

Lemma null_date_leb_total a b : null_date_leb a b = true \/ null_date_leb b a = true.
Proof. destruct a, b; simpl; auto using date_leb_total. Qed.

Lemma null_date_leb_trans a b c :
  null_date_leb a b = true -> null_date_leb b c = true -> null_date_leb a c = true.
Proof. destruct a, b, c; simpl; try done. apply date_leb_trans. Qed.

Lemma null_date_leb_refl a : null_date_leb a a = true.
Proof. by destruct (null_date_leb_total a a). Qed.

Section OrderByFacts.
Context {A : Type} (key : A -> option date).

Lemma insert_desc_perm x l : insert_desc key x l ≡ₚ x :: l.
Proof.
  induction l as [| y l IH]; simpl; [done |].
  destruct (null_date_leb _ _); [done |]. rewrite IH. apply Permutation_swap.
Qed.

Lemma order_by_desc_perm l : order_by_desc key l ≡ₚ l.
Proof.
  induction l as [| x l IH]; simpl; [done |].
  unfold order_by_desc in *. simpl. by rewrite insert_desc_perm, IH.
Qed.

Lemma insert_desc_head_dominates x l :
  head_dominates key l -> head_dominates key (insert_desc key x l).
Proof.
  intros Hl. destruct l as [| y l]; simpl.
  - intros h Hh. injection Hh as <-.
    constructor; [apply null_date_leb_refl | constructor].
  - destruct (null_date_leb (key y) (key x)) eqn:E.
    + intros h Hh. injection Hh as <-. constructor; [apply null_date_leb_refl |].
      specialize (Hl y eq_refl). revert Hl. apply Forall_impl.
      intros z Hz. by eapply null_date_leb_trans.
    + intros h Hh. injection Hh as <-. specialize (Hl y eq_refl).
      apply list.Forall_cons in Hl as [Hy Hl]. constructor; [done |].
      rewrite (insert_desc_perm x l). constructor; [| done].
      destruct (null_date_leb_total (key x) (key y)); congruence.
Qed.

Lemma order_by_desc_head_dominates l : head_dominates key (order_by_desc key l).
Proof.
  induction l as [| x l IH]; [by intros h |].
  unfold order_by_desc in *. simpl. by apply insert_desc_head_dominates.
Qed.

Lemma head_order_by_desc (P : A -> Prop) `{!forall x, Decision (P x)} (l : list A) :
  match head (order_by_desc key (filter P l)) with
  | Some h =>
      h ∈ l /\ P h /\ forall y, y ∈ l -> P y -> null_date_leb (key y) (key h) = true
  | None => forall y, y ∈ l -> ~ P y
  end.
Proof.
  pose proof (order_by_desc_perm (filter P l)) as Hperm.
  pose proof (order_by_desc_head_dominates (filter P l)) as Hdom.
  destruct (order_by_desc key (filter P l)) as [| h rest] eqn:E; simpl.
  - intros y Hy HP. assert (Hin : y ∈ filter P l) by (by apply list_elem_of_filter).
    rewrite <- Hperm in Hin. by apply not_elem_of_nil in Hin.
  - assert (Hh : h ∈ filter P l) by (rewrite <- Hperm; left).
    apply list_elem_of_filter in Hh as [HPh Hhl]. split; [done |]. split; [done |].
    intros y Hy HPy. assert (Hin : y ∈ h :: rest).
    { rewrite Hperm. by apply list_elem_of_filter. }
    specialize (Hdom h eq_refl). rewrite list.Forall_forall in Hdom. by apply Hdom.
Qed.
End OrderByFacts.

(** ** The dated batch of the legacy recipe table *)

Lemma latest_batch_spec (P : BlendRecipe.row -> Prop) `{!forall x, Decision (P x)}
    (rows : list BlendRecipe.row) :
  match head (order_by_desc BlendRecipe.effective_date (filter P rows)) with
  | Some r0 =>
      forall r, r ∈ latest_batch (order_by_desc BlendRecipe.effective_date (filter P rows))
                <-> r ∈ rows /\ P r /\
                    BlendRecipe.effective_date r = BlendRecipe.effective_date r0
  | None => latest_batch (order_by_desc BlendRecipe.effective_date (filter P rows)) = []
  end.
Proof.
  pose proof (order_by_desc_perm BlendRecipe.effective_date (filter P rows)) as Hperm.
  destruct (order_by_desc BlendRecipe.effective_date (filter P rows))
    as [| r0 rest]; simpl; [done |].
  intros r.
  change (r ∈ filter (fun x => BlendRecipe.effective_date x =
                               BlendRecipe.effective_date r0) (r0 :: rest) <->
          r ∈ rows /\ P r /\ BlendRecipe.effective_date r = BlendRecipe.effective_date r0).
  rewrite list_elem_of_filter, Hperm, list_elem_of_filter. tauto.
Qed.

(** X10. The batch a sale edit or a sale delete works with: every row of it is
    a row of [blend_recipes] for that product whose effective date is NULL or
    not after the sale date, and all its rows carry one and the same
    effective date. *)
Theorem dated_batch_rows db product_name sale_date :
  let batch := latest_batch (select_blend_recipes_upto db product_name sale_date) in
  (forall r, r ∈ batch ->
     r ∈ blend_recipes db /\ BlendRecipe.product_name r = product_name /\
     null_date_leb (BlendRecipe.effective_date r) (Some sale_date) = true) /\
  (forall r r', r ∈ batch -> r' ∈ batch ->
     BlendRecipe.effective_date r = BlendRecipe.effective_date r').
Proof.
  intros batch. subst batch. unfold select_blend_recipes_upto.
  set (P := fun r => BlendRecipe.product_name r = product_name /\
                     null_date_leb (BlendRecipe.effective_date r) (Some sale_date) = true).
  pose proof (latest_batch_spec P (blend_recipes db)) as Hspec.
  destruct (head _) as [r0 |].
  - split.
    + intros r Hr. apply Hspec in Hr as (Hin & [Hname Hdate] & _). done.
    + intros r r' Hr Hr'. apply Hspec in Hr as (_ & _ & ->).
      by apply Hspec in Hr' as (_ & _ & ->).
  - rewrite Hspec. split; [intros r Hr | intros r r' Hr]; by apply not_elem_of_nil in Hr.
Qed.

(** X11. That batch is the latest one and it is complete: whenever the product
    has a row dated NULL or not after the sale date, the batch is not empty,
    no such row is effective later than the batch, and every such row that
    shares the effective date of the batch is in it.  Rows without a date are
    used only when no dated row qualifies. *)
Theorem dated_batch_is_latest db product_name sale_date r :
  r ∈ blend_recipes db ->
  BlendRecipe.product_name r = product_name ->
  null_date_leb (BlendRecipe.effective_date r) (Some sale_date) = true ->
  let batch := latest_batch (select_blend_recipes_upto db product_name sale_date) in
  batch <> [] /\
  forall r0, r0 ∈ batch ->
    null_date_leb (BlendRecipe.effective_date r) (BlendRecipe.effective_date r0) = true /\
    (BlendRecipe.effective_date r = BlendRecipe.effective_date r0 -> r ∈ batch).
Proof.
  intros Hin Hname Hdate batch. subst batch. unfold select_blend_recipes_upto.
  set (P := fun r => BlendRecipe.product_name r = product_name /\
                     null_date_leb (BlendRecipe.effective_date r) (Some sale_date) = true).
  pose proof (latest_batch_spec P (blend_recipes db)) as Hspec.
  pose proof (head_order_by_desc BlendRecipe.effective_date P (blend_recipes db)) as Hhead.
  destruct (head _) as [r0 |].
  - destruct Hhead as (Hr0 & HP0 & Hmax). split.
    + intros E. assert (Hr0' : r0 ∈ latest_batch
                  (order_by_desc BlendRecipe.effective_date (filter P (blend_recipes db))))
        by (by apply Hspec).
      rewrite E in Hr0'. by apply not_elem_of_nil in Hr0'.
    + intros r1 Hr1. apply Hspec in Hr1 as (_ & _ & E1). rewrite E1. split.
      * by apply Hmax.
      * intros E. apply Hspec. by repeat split.
  - exfalso. by apply (Hhead r Hin).
Qed.

Lemma dated_batch_is_latest_witness :
  latest_batch (select_blend_recipes_upto july_db "House Blend" (Date 2024 7 10)) <> [].
Proof.
  eapply (dated_batch_is_latest july_db "House Blend" (Date 2024 7 10)
            (BlendRecipe.Row "House Blend" "Brazil" "Santos" (Qc_of_Z 70)
                             (Some (Date 2024 1 1)))); [| done | done].
  left.
Defined.

(** ** The statements the resolver issues *)

(** X12. The dated statement over [product_bom_history] answers with an
    assignment of the product that is effective on or before the sale date
    and no earlier than any other such assignment; it answers with nothing
    exactly when the product has no assignment effective by that date. *)
Theorem dated_assignment_is_latest db product_id sale_date :
  match select_bom_history_upto db product_id sale_date with
  | Some h =>
      h ∈ product_bom_history db /\ BomHistory.product_id h = product_id /\
      date_leb (BomHistory.effective_date h) sale_date = true /\
      forall h', h' ∈ product_bom_history db -> BomHistory.product_id h' = product_id ->
                 date_leb (BomHistory.effective_date h') sale_date = true ->
                 date_leb (BomHistory.effective_date h') (BomHistory.effective_date h) = true
  | None =>
      forall h', h' ∈ product_bom_history db -> BomHistory.product_id h' = product_id ->
                 date_leb (BomHistory.effective_date h') sale_date = false
  end.
Proof.
  unfold select_bom_history_upto.
  pose proof (head_order_by_desc (fun r => Some (BomHistory.effective_date r))
                (fun r => BomHistory.product_id r = product_id /\
                          date_leb (BomHistory.effective_date r) sale_date = true)
                (product_bom_history db)) as Hhead.
  destruct (head _) as [h |].
  - destruct Hhead as (Hin & [Hid Hdate] & Hmax). repeat split; try done.
    intros h' Hin' Hid' Hdate'. by apply (Hmax h').
  - intros h' Hin' Hid'. apply not_true_is_false. intros Hdate'.
    by apply (Hhead h' Hin').
Qed.

(** X13. Called without a date the resolver always answers.  Tagged
    [new_system], the lines are those of the master BOM named by the
    product's latest assignment, an active product's assignment with a BOM id
    that is neither NULL nor 0, whether or not that BOM has any line.  Tagged
    [old_system], the lines are not empty and are exactly the lines of the
    product's [blend_recipes] rows that carry the greatest effective date on
    file.  Tagged [none], there is no line and the product has no row in
    [blend_recipes]. *)
Theorem undated_resolver_answers db product_name :
  exists lines tag,
    get_product_bom db product_name None = Py.Ok (lines, tag) /\
    match tag with
    | new_system =>
        exists product_id h master_bom_id,
          select_product_id db product_name = Some product_id /\
          select_bom_history_latest db product_id = Some h /\
          BomHistory.master_bom_id h = Some master_bom_id /\
          master_bom_id <> 0%Z /\
          lines = get_master_bom_recipe db master_bom_id /\
          forall h', h' ∈ product_bom_history db ->
                     BomHistory.product_id h' = product_id ->
                     date_leb (BomHistory.effective_date h')
                              (BomHistory.effective_date h) = true
    | old_system =>
        lines <> [] /\
        exists r0,
          r0 ∈ blend_recipes db /\ BlendRecipe.product_name r0 = product_name /\
          (forall r, r ∈ blend_recipes db -> BlendRecipe.product_name r = product_name ->
                     null_date_leb (BlendRecipe.effective_date r)
                                   (BlendRecipe.effective_date r0) = true) /\
          forall l, l ∈ lines <->
                    exists r, r ∈ blend_recipes db /\
                              BlendRecipe.product_name r = product_name /\
                              BlendRecipe.effective_date r = BlendRecipe.effective_date r0 /\
                              l = line_of r
    | none =>
        lines = [] /\
        forall r, r ∈ blend_recipes db -> BlendRecipe.product_name r <> product_name
    end.
Proof.
  assert (Hlegacy :
    exists lines tag,
      match select_blend_recipes_all db product_name with
      | [] => Py.Ok ([], none)
      | _ :: _ => Py.Ok (line_of <$> latest_batch (select_blend_recipes_all db product_name),
                         old_system)
      end = Py.Ok (lines, tag) /\
      match tag with
      | new_system => False
      | old_system =>
          lines <> [] /\
          exists r0,
            r0 ∈ blend_recipes db /\ BlendRecipe.product_name r0 = product_name /\
            (forall r, r ∈ blend_recipes db -> BlendRecipe.product_name r = product_name ->
                       null_date_leb (BlendRecipe.effective_date r)
                                     (BlendRecipe.effective_date r0) = true) /\
            forall l, l ∈ lines <->
                      exists r, r ∈ blend_recipes db /\
                                BlendRecipe.product_name r = product_name /\
                                BlendRecipe.effective_date r =
                                  BlendRecipe.effective_date r0 /\
                                l = line_of r
      | none =>
          lines = [] /\
          forall r, r ∈ blend_recipes db -> BlendRecipe.product_name r <> product_name
      end).
  { unfold select_blend_recipes_all.
    set (P := fun r => BlendRecipe.product_name r = product_name).
    pose proof (latest_batch_spec P (blend_recipes db)) as Hspec.
    pose proof (head_order_by_desc BlendRecipe.effective_date P (blend_recipes db)) as Hhead.
    destruct (order_by_desc BlendRecipe.effective_date (filter P (blend_recipes db)))
      as [| r0 rest] eqn:E.
    - exists [], none. split; [done |]. split; [done |]. exact Hhead.
    - simpl in Hspec, Hhead. destruct Hhead as (Hr0 & HP0 & Hmax).
      eexists _, old_system. split; [reflexivity |]. split.
      + simpl. rewrite filter_cons, decide_True by done. done.
      + exists r0. split; [done |]. split; [done |]. split; [exact Hmax |].
        intros l. rewrite list_elem_of_fmap. split.
        * intros (r & -> & Hr). apply Hspec in Hr as (? & ? & ?). by exists r.
        * intros (r & Hr & Hn & He & ->). exists r. split; [done |]. by apply Hspec. }
  unfold get_product_bom.
  destruct (select_product_id db product_name) as [product_id |] eqn:Hpid; simpl.
  - pose proof (head_order_by_desc (fun r => Some (BomHistory.effective_date r))
                  (fun r => BomHistory.product_id r = product_id)
                  (product_bom_history db)) as Hhead.
    fold (select_bom_history_latest db product_id) in Hhead.
    destruct (select_bom_history_latest db product_id) as [h |] eqn:Hh; simpl.
    + destruct (BomHistory.master_bom_id h) as [mb |] eqn:Hmb; simpl.
      * destruct (Py.truthy_int mb) eqn:Ht; simpl.
        -- eexists _, new_system. split; [reflexivity |].
           exists product_id, h, mb. repeat split; try done.
           ++ intros ->. discriminate.
           ++ intros h' Hin Hid. destruct Hhead as (_ & _ & Hmax). by apply (Hmax h').
        -- destruct Hlegacy as (lines & tag & Heq & Htag).
           exists lines, tag. split; [exact Heq |]. by destruct tag.
      * destruct Hlegacy as (lines & tag & Heq & Htag).
        exists lines, tag. split; [exact Heq |]. by destruct tag.
    + destruct Hlegacy as (lines & tag & Heq & Htag).
      exists lines, tag. split; [exact Heq |]. by destruct tag.
  - destruct Hlegacy as (lines & tag & Heq & Htag).
    exists lines, tag. split; [exact Heq |]. by destruct tag.
Qed.

(** ** The sales upload, row by row *)

Lemma upload_sales_row_complete st idx row :
  complete row ->
  exists name,
    upload_sales_row st idx row =
    Upload (store st) (success_count st) (S (error_count st))
           (warning_messages st ++ [RowError (idx + 2) (Py.UnboundLocalError name)]).
Proof.
  intros [[d Hd] [product Hp]]. unfold upload_sales_row. rewrite Hd, Hp.
  rewrite get_product_bom_dated. by eexists.
Qed.

Lemma upload_sales_row_incomplete st idx row :
  ~ complete row -> upload_sales_row st idx row = st.
Proof.
  intros Hn. unfold upload_sales_row.
  destruct (row_date row) eqn:Hd, (row_product row) eqn:Hp; try done.
  exfalso. apply Hn. split; [rewrite Hd | rewrite Hp]; by eexists.
Qed.

(** X14. Whatever file is uploaded, the upload records no sale and moves no
    stock: the store is left as it was and the success count stays 0.  Rows
    that lack a date or a product name are passed over in silence; every other
    row is counted as failed and answered with one error message, the
    unbound-name error of the recipe lookup. *)
Theorem upload_only_counts_failures rows db :
  let done := btn_upload_sales rows db in
  store done = db /\
  success_count done = 0%nat /\
  error_count done = length (filter complete rows) /\
  length (warning_messages done) = length (filter complete rows) /\
  Forall is_row_error (warning_messages done).
Proof.
  intros done. subst done. unfold btn_upload_sales.
  enough (H : forall st idx,
            let out := fst (foldl (fun '(st, idx) row =>
                                     (upload_sales_row st idx row, (idx + 1)%Z))
                                  (st, idx) rows) in
            store out = store st /\
            success_count out = success_count st /\
            error_count out = (error_count st + length (filter complete rows))%nat /\
            length (warning_messages out) =
              (length (warning_messages st) + length (filter complete rows))%nat /\
            (Forall is_row_error (warning_messages st) ->
             Forall is_row_error (warning_messages out))).
  { destruct (H (Upload db 0 0 []) 0%Z) as (H1 & H2 & H3 & H4 & H5).
    repeat split; try done. by apply H5. }
  induction rows as [| row rows IH]; intros st idx; simpl.
  - repeat split; try done; lia.
  - destruct (IH (upload_sales_row st idx row) (idx + 1)%Z) as (H1 & H2 & H3 & H4 & H5).
    rewrite filter_cons. destruct (decide (complete row)) as [Hc | Hc].
    + destruct (upload_sales_row_complete st idx row Hc) as [name Hrow].
      rewrite Hrow in *. simpl in *. rewrite length_app in H4. simpl in H4.
      repeat split; try done; try lia.
      intros Hst. apply H5. apply Forall_app. split; [done |]. by repeat constructor.
    + rewrite (upload_sales_row_incomplete st idx row Hc) in *.
      repeat split; try done.
Qed.

(** ** The body of the row loop *)

Lemma deduct_all_stock d product quantity needed customer recipe db o p :
  get_bean_stock (deduct_all d product quantity needed customer recipe db) o p =
  get_bean_stock db o p - line_total o p needed recipe.
Proof.
  revert db. induction recipe as [| [[o0 p0] ratio] recipe IH]; intros db; simpl.
  - unfold deduct_all; simpl. ring.
  - unfold deduct_all in *. simpl. rewrite IH, apply_delta_stock.
    unfold share. case_decide; ring.
Qed.

Lemma deduct_all_sale_seq d product quantity needed customer recipe db :
  sale_seq (deduct_all d product quantity needed customer recipe db) = sale_seq db /\
  product_sales (deduct_all d product quantity needed customer recipe db) = product_sales db.
Proof.
  revert db. induction recipe as [| [[o0 p0] ratio] recipe IH]; intros db; [done |].
  unfold deduct_all in *. simpl. destruct (IH (apply_delta d sale o0 p0
    (- required_qty needed ratio) None (NoteSale product quantity needed customer) db))
    as [-> ->].
  unfold apply_delta, update_green_bean_inventory. by destruct (_ !! _).
Qed.

Lemma record_sale_cases line d product quantity unit_price total_ customer
    recipe st :
  let db := store st in
  let needed := green_bean_needed quantity in
  let st' := record_sale line d product quantity unit_price total_ customer recipe st in
  product_sales (store st') =
    product_sales db ++
      [Sale.Row (sale_seq db + 1) d product quantity unit_price total_ customer] /\
  success_count st' = S (success_count st) /\
  error_count st' = error_count st /\
  (recipe = [] \/ insufficient_beans db needed recipe <> [] ->
   green_bean_inventory (store st') = green_bean_inventory db /\
   inventory_transactions (store st') = inventory_transactions db) /\
  (recipe <> [] -> insufficient_beans db needed recipe = [] ->
   appended db (store st') = sale_row d product quantity needed customer <$> recipe /\
   forall o p, get_bean_stock (store st') o p =
               get_bean_stock db o p - line_total o p needed recipe).
Proof.
  intros db needed st'. subst st' db needed. unfold record_sale.
  destruct recipe as [| l recipe].
  - simpl. repeat split; try done.
  - destruct (insufficient_beans _ _ _) as [| b short] eqn:E.
    + pose proof (deduct_all_sale_seq d product quantity (green_bean_needed quantity)
                    customer (l :: recipe) (store st)) as [Hseq Hsales].
      pose proof (deduct_all_transactions d product quantity (green_bean_needed quantity)
                    customer (l :: recipe) (store st)) as Hlog.
      pose proof (deduct_all_stock d product quantity (green_bean_needed quantity)
                    customer (l :: recipe) (store st)) as Hstock.
      remember (deduct_all d product quantity (green_bean_needed quantity) customer
                  (l :: recipe) (store st)) as consumed eqn:Hc.
      clear Hc. cbn [store success_count error_count warning_messages product_sales
                     set_sales bump_sale_seq fst snd].
      rewrite Hseq, Hsales. split; [done |]. split; [done |]. split; [done |]. split.
      * intros [? | ?]; done.
      * intros _ _. split; [by apply appended_app |].
        intros o p.
        change (get_bean_stock (bump_sale_seq (set_sales ?f ?x)) o p)
          with (get_bean_stock x o p).
        apply Hstock.
    + simpl. repeat split; try done.
Qed.

Lemma line_total_absent o p needed recipe :
  (o, p) ∉ bean_of <$> recipe -> line_total o p needed recipe = 0.
Proof.
  induction recipe as [| [[o0 p0] ratio] recipe IH]; intros Hout; simpl; [done |].
  rewrite fmap_cons in Hout. apply not_elem_of_cons in Hout as [Hne Hout].
  rewrite (IH Hout). unfold share. rewrite decide_False; [ring |].
  intros E. apply Hne. unfold bean_of. simpl. congruence.
Qed.

Lemma line_total_single o p needed recipe :
  NoDup (bean_of <$> recipe) ->
  line_total o p needed recipe = 0 \/
  exists ratio, (o, p, ratio) ∈ recipe /\
                line_total o p needed recipe = required_qty needed ratio.
Proof.
  induction recipe as [| [[o0 p0] ratio] recipe IH]; intros Hnd; simpl; [by left |].
  rewrite fmap_cons in Hnd. apply list.NoDup_cons in Hnd as [Hout Hnd].
  unfold share. destruct (decide ((o0, p0) = (o, p))) as [E | Hne].
  - injection E as -> ->. right. exists ratio. split; [left |].
    rewrite (line_total_absent o p needed recipe Hout). ring.
  - destruct (IH Hnd) as [H0 | (r & Hin & Hr)].
    + left. rewrite H0. ring.
    + right. exists r. split; [by right |]. rewrite Hr. ring.
Qed.

Lemma insufficient_beans_nil db needed recipe :
  insufficient_beans db needed recipe = [] ->
  Forall (fun line => required_qty needed line.2 <= get_bean_stock db line.1.1 line.1.2)
         recipe.
Proof.
  induction recipe as [| [[o0 p0] ratio] recipe IH]; intros H; [constructor |].
  unfold insufficient_beans in *. simpl in H.
  destruct (decide (get_bean_stock db o0 p0 < required_qty needed ratio)) as [Hlt | Hge];
    [done |].
  constructor; [| by apply IH]. simpl. by apply Qcnot_lt_le.
Qed.

(** X16. A sale whose recipe names every bean once and passes the stock check
    never drives a balance below zero: after the body of the row loop, every
    bean that had a stock of zero or more still has a stock of zero or more. *)
Theorem checked_sale_keeps_stock_nonnegative line d product quantity unit_price total_
    customer recipe st :
  NoDup (bean_of <$> recipe) ->
  insufficient_beans (store st) (green_bean_needed quantity) recipe = [] ->
  forall o p,
    0 <= get_bean_stock (store st) o p ->
    0 <= get_bean_stock
           (store (record_sale line d product quantity unit_price total_ customer
                               recipe st)) o p.
Proof.
  intros Hnd Hok o p Hpos.
  destruct recipe as [| l recipe]; [done |].
  destruct (record_sale_cases line d product quantity unit_price total_ customer
              (l :: recipe) st) as (_ & _ & _ & _ & Hdeduct).
  destruct (Hdeduct ltac:(done) Hok) as [_ ->].
  apply insufficient_beans_nil in Hok. rewrite list.Forall_forall in Hok.
  destruct (line_total_single o p (green_bean_needed quantity) (l :: recipe) Hnd)
    as [-> | (ratio & Hin & ->)].
  - by rewrite Qcminus_right_id.
  - specialize (Hok _ Hin). simpl in Hok. by apply Qcle_minus_iff in Hok.
Qed.

Lemma checked_sale_keeps_stock_nonnegative_witness :
  0 <= get_bean_stock
         (store (record_sale 2 (Date 2024 2 10) "House Blend" 1 (Qc_of_Z 20000)
                   (Qc_of_Z 20000) "Cafe" house_blend (Upload house_db 0 0 [])))
         "Brazil" "Santos".
Proof.
  apply (checked_sale_keeps_stock_nonnegative 2 (Date 2024 2 10) "House Blend" 1
           (Qc_of_Z 20000) (Qc_of_Z 20000) "Cafe" house_blend (Upload house_db 0 0 [])).
  - apply (bool_decide_unpack _). vm_compute. exact I.
  - vm_compute. reflexivity.
  - vm_compute. discriminate.
Defined.

(** ** Rounding to grams *)

Lemma this_plus (x y : Qc) : (this (x + y) == this x + this y)%Q.
Proof. apply Qred_correct. Qed.

Lemma this_mult (x y : Qc) : (this (x * y) == this x * this y)%Q.
Proof. apply Qred_correct. Qed.

Lemma this_opp (x : Qc) : (this (- x) == - this x)%Q.
Proof. apply Qred_correct. Qed.

Lemma this_minus (x y : Qc) : (this (x - y) == this x - this y)%Q.
Proof. unfold Qcminus. rewrite this_plus, this_opp. reflexivity. Qed.

Lemma this_inv (x : Qc) : (this (/ x) == / this x)%Q.
Proof. apply Qred_correct. Qed.

Lemma this_div (x y : Qc) : (this (x / y) == this x / this y)%Q.
Proof. unfold Qcdiv. rewrite this_mult, this_inv. reflexivity. Qed.

Lemma this_Q2Qc (q : Q) : (this (Q2Qc q) == q)%Q.
Proof. apply Qred_correct. Qed.

Lemma this_of_Z (k : Z) : (this (Qc_of_Z k) == inject_Z k)%Q.
Proof. apply Qred_correct. Qed.

Lemma this_div_100 (x : Qc) : (this (x / Qc_of_Z 100) == this x * (1 # 100))%Q.
Proof. rewrite this_div, this_of_Z. reflexivity. Qed.

Ltac qc2q_in H :=
  unfold Qcle, Qclt in H;
  repeat first
    [ rewrite this_plus in H | rewrite this_minus in H | rewrite this_mult in H
    | rewrite this_div_100 in H | rewrite this_opp in H
    | rewrite this_of_Z in H | rewrite this_Q2Qc in H ].

Ltac qc2q :=
  unfold Qcle, Qclt;
  repeat first
    [ rewrite this_plus | rewrite this_minus | rewrite this_mult
    | rewrite this_div_100 | rewrite this_opp
    | rewrite this_of_Z | rewrite this_Q2Qc ].

Lemma round_half_even_near (y : Qc) :
  (inject_Z (round_half_even y) - this y <= 1 # 2)%Q /\
  (this y - inject_Z (round_half_even y) <= 1 # 2)%Q.
Proof.
  unfold round_half_even.
  pose proof (Qfloor_le y) as Hlo. pose proof (Qlt_floor y) as Hhi.
  rewrite inject_Z_plus in Hhi. change (inject_Z 1) with 1%Q in Hhi.
  set (n := Qfloor y) in *.
  destruct (decide _) as [H1 | H1].
  - qc2q_in H1. split; lra.
  - destruct (decide _) as [H2 | H2].
    + rewrite inject_Z_plus. change (inject_Z 1) with 1%Q. qc2q_in H2. split; lra.
    + apply Qcnot_lt_le in H1, H2. qc2q_in H1. qc2q_in H2. destruct (Z.even n).
      * split; lra.
      * rewrite inject_Z_plus. change (inject_Z 1) with 1%Q. split; lra.
Qed.

Lemma Qmake_1000 (k : Z) : (k # 1000 == inject_Z k * (1 # 1000))%Q.
Proof. unfold Qeq, inject_Z, Qmult; simpl. lia. Qed.

Lemma this_round3 (x : Qc) :
  (this (round3 x) == inject_Z (round_half_even (x * Qc_of_Z 1000)) * (1 # 1000))%Q.
Proof. unfold round3. rewrite this_Q2Qc. apply Qmake_1000. Qed.

Lemma round3_near (x : Qc) :
  (this x - (1 # 2000) <= this (round3 x))%Q /\ (this (round3 x) <= this x + (1 # 2000))%Q.
Proof.
  destruct (round_half_even_near (x * Qc_of_Z 1000)) as [H1 H2].
  rewrite this_round3. set (k := round_half_even _) in *.
  qc2q_in H1. qc2q_in H2. change (inject_Z 1000) with 1000%Q in *. split; lra.
Qed.

Lemma within_one_gram (qq g r t : Q) :
  (qq * (12 # 10) - (1 # 2000) <= g -> g <= qq * (12 # 10) + (1 # 2000) ->
   g * (t * (1 # 100)) - (1 # 2000) <= r -> r <= g * (t * (1 # 100)) + (1 # 2000) ->
   0 <= t -> t <= 100 ->
   t * (1 # 100) * (qq * (12 # 10)) - (1 # 1000) <= r /\
   r <= t * (1 # 100) * (qq * (12 # 10)) + (1 # 1000))%Q.
Proof.
  intros G1 G2 R1 R2 T0 T1.
  set (s := (t * (1 # 100))%Q) in *.
  assert (S0 : (0 <= s)%Q) by (unfold s; lra).
  assert (S1 : (s <= 1)%Q) by (unfold s; lra).
  assert (A : (0 <= (g - qq * (12 # 10) + (1 # 2000)) * s)%Q)
    by (apply Qmult_le_0_compat; lra).
  assert (B : (0 <= (qq * (12 # 10) + (1 # 2000) - g) * s)%Q)
    by (apply Qmult_le_0_compat; lra).
  split; nra.
Qed.

(** X17. For a ratio between 0 and 100 the quantity a sale moves for a recipe
    line, rounded twice to three decimals, is within one gram of the figure
    the blend calculator shows for the same finished quantity and ratio, which
    is not rounded. *)
Theorem sale_side_within_one_gram_of_calculator (quantity ratio : Qc) :
  0 <= ratio -> ratio <= Qc_of_Z 100 ->
  calculator_required_kg quantity ratio - Q2Qc (1 # 1000)
    <= required_qty (green_bean_needed quantity) ratio /\
  required_qty (green_bean_needed quantity) ratio
    <= calculator_required_kg quantity ratio + Q2Qc (1 # 1000).
Proof.
  intros H0 H100. unfold required_qty, green_bean_needed, calculator_required_kg,
    calculator_needed.
  destruct (round3_near (quantity * ROASTING_LOSS_RATE)) as [G1 G2].
  set (g := round3 (quantity * ROASTING_LOSS_RATE)) in *.
  destruct (round3_near (g * (ratio / Qc_of_Z 100))) as [R1 R2].
  set (r := round3 _) in *.
  unfold ROASTING_LOSS_RATE in *.
  qc2q_in H100. change (inject_Z 100) with 100%Q in H100.
  unfold Qcle in H0. change (this 0) with 0%Q in H0.
  rewrite this_mult, this_div_100 in R1, R2.
  rewrite this_mult, this_Q2Qc in G1, G2.
  qc2q. apply within_one_gram with (g := this g); assumption.
Qed.

Lemma sale_side_within_one_gram_of_calculator_witness :
  required_qty (green_bean_needed (Qc_of_Z 15)) (Qc_of_Z 70)
    <= calculator_required_kg (Qc_of_Z 15) (Qc_of_Z 70) + Q2Qc (1 # 1000).
Proof.
  apply (sale_side_within_one_gram_of_calculator (Qc_of_Z 15) (Qc_of_Z 70));
    vm_compute; discriminate.
Defined.

Lemma taken_near needed recipe :
  (this needed * this (total (snd <$> recipe)) * (1 # 100)
     - inject_Z (Z.of_nat (length recipe)) * (1 # 2000) <= this (taken needed recipe) /\
   this (taken needed recipe) <=
     this needed * this (total (snd <$> recipe)) * (1 # 100)
     + inject_Z (Z.of_nat (length recipe)) * (1 # 2000))%Q.
Proof.
  induction recipe as [| [[o p] ratio] recipe [IH1 IH2]].
  - unfold taken, total. cbn [fmap list_fmap foldr length]. change (this 0) with 0%Q.
    change (inject_Z (Z.of_nat 0)) with 0%Q. split; lra.
  - unfold taken, total in *. rewrite !fmap_cons. cbn [foldr length snd].
    rewrite Nat2Z.inj_succ. unfold Z.succ. rewrite inject_Z_plus.
    change (inject_Z 1) with 1%Q. rewrite !this_plus.
    destruct (round3_near (needed * (ratio / Qc_of_Z 100))) as [R1 R2].
    rewrite this_mult, this_div_100 in R1, R2. fold (required_qty needed ratio) in R1, R2.
    set (T := this (foldr Qcplus 0 ((fun line : recipe_line => required_qty needed line.2)
                                       <$> recipe))) in *.
    set (R := this (foldr Qcplus 0 (snd <$> recipe))) in *.
    set (a := this needed) in *. set (t := this ratio) in *.
    set (q := this (required_qty needed ratio)) in *.
    set (k := inject_Z (Z.of_nat (length recipe))) in *.
    split; nra.
Qed.

(** X18. What a sale takes from all beans together is the green-bean need
    times the sum of the ratios over 100, up to half a gram per recipe line;
    for a recipe whose ratios sum to 100 it is the green-bean need itself, up
    to half a gram per line. *)
Theorem sale_takes_the_need_up_to_rounding needed recipe :
  let lines := Qc_of_Z (Z.of_nat (length recipe)) in
  let ratios := total (snd <$> recipe) in
  (needed * ratios / Qc_of_Z 100 - lines * Q2Qc (1 # 2000) <= taken needed recipe /\
   taken needed recipe <= needed * ratios / Qc_of_Z 100 + lines * Q2Qc (1 # 2000)) /\
  (ratios = Qc_of_Z 100 ->
   needed - lines * Q2Qc (1 # 2000) <= taken needed recipe /\
   taken needed recipe <= needed + lines * Q2Qc (1 # 2000)).
Proof.
  intros lines ratios. destruct (taken_near needed recipe) as [H1 H2].
  fold ratios in H1, H2. clearbody ratios. split.
  - subst lines. qc2q. by split.
  - intros E. rewrite E, this_of_Z in H1, H2. change (inject_Z 100) with 100%Q in H1, H2.
    subst lines. qc2q.
    set (k := inject_Z (Z.of_nat (length recipe))).
    change (inject_Z (Z.of_nat (length recipe))) with k in H1, H2. clearbody k.
    set (a := this needed) in *. clearbody a.
    set (t := this (taken needed recipe)) in *. clearbody t. split; lra.
Qed.

Lemma sale_takes_the_need_up_to_rounding_witness :
  taken (green_bean_needed 1) house_blend <=
  green_bean_needed 1 + Qc_of_Z (Z.of_nat (length house_blend)) * Q2Qc (1 # 2000).
Proof.
  apply (proj2 (sale_takes_the_need_up_to_rounding (green_bean_needed 1) house_blend)).
  apply Qc_eq_bool. vm_compute. reflexivity.
Defined.

(** ** More on the weighted-average price *)

(** X20. The price on the stock screen, which averages every purchase of a
    bean, is the price the report would charge as of any cutoff that no
    purchase of the bean is dated after. *)
Theorem stock_screen_price_is_report_price db origin product_name cutoff :
  totals_agree db ->
  Forall (fun r => date_leb (Purchase.purchase_date r) cutoff = true)
         (purchases_of db origin product_name) ->
  green_inv_weighted_avg_price db origin product_name =
  weighted_avg_price db origin product_name cutoff.
Proof.
  intros Htot Hall.
  pose proof (purchases_upto_totals db origin product_name cutoff Htot) as Hrows.
  unfold weighted_avg_price, bean_price_query, green_inv_weighted_avg_price. cbv zeta.
  assert (E : purchases_upto db origin product_name cutoff =
              purchases_of db origin product_name).
  { unfold purchases_upto. by apply filter_keep_all. }
  rewrite E in *. rewrite (total_amount_is_value _ Hrows). fold purchase_value.
  destruct (purchases_of db origin product_name) as [| r rows]; [done |].
  rewrite !sql_sum_total by done.
  generalize (total (Purchase.quantity_kg <$> r :: rows)) as Qt.
  generalize (total (purchase_value <$> r :: rows)) as Vt.
  intros Vt Qt. unfold sql_nullif_zero, sql_div.
  destruct (decide (Qt = 0)) as [Hz | Hnz]; [done |]. by rewrite decide_False.
Qed.

Lemma stock_screen_price_is_report_price_witness :
  green_inv_weighted_avg_price three_purchases "Brazil" "Santos" =
  weighted_avg_price three_purchases "Brazil" "Santos" (Date 2024 3 31).
Proof.
  apply (stock_screen_price_is_report_price three_purchases "Brazil" "Santos"
           (Date 2024 3 31)).
  - apply (bool_decide_unpack _). vm_compute. exact I.
  - apply (bool_decide_unpack _). vm_compute. exact I.
Defined.

(** ** Registering a master BOM *)

Lemma bom_form_step_spec acc line :
  bom_form_step acc line =
    if decide (filled_in line) then (acc.1 ++ [line], acc.2 + line.2) else acc.
Proof.
  destruct acc as [blend_data total_ratio], line as [[origin product] ratio].
  unfold bom_form_step, filled_in. cbn [fst snd].
  destruct (Py.truthy_str origin) eqn:Ho; cbn [andb].
  - destruct (Py.truthy_str product) eqn:Hp; cbn [andb].
    + apply truthy_str_spec in Ho, Hp.
      destruct (decide (0 < ratio)) as [Hr | Hr].
      * rewrite bool_decide_eq_true_2 by done. by rewrite decide_True.
      * rewrite bool_decide_eq_false_2 by done. rewrite decide_False; [done | tauto].
    + rewrite decide_False; [done |]. intros (_ & Hp' & _).
      apply truthy_str_spec in Hp'. congruence.
  - rewrite decide_False; [done |]. intros (Ho' & _).
    apply truthy_str_spec in Ho'. congruence.
Qed.

Lemma bom_form_from lines blend_data total_ratio :
  foldl bom_form_step (blend_data, total_ratio) lines =
    (blend_data ++ filter filled_in lines,
     total_ratio + total (snd <$> filter filled_in lines)).
Proof.
  revert blend_data total_ratio.
  induction lines as [| line lines IH]; intros blend_data total_ratio.
  - cbn. rewrite app_nil_r. f_equal. unfold total. cbn. ring.
  - cbn [foldl]. rewrite bom_form_step_spec. cbn [fst snd].
    rewrite filter_cons. destruct (decide (filled_in line)) as [Hl | Hl].
    + rewrite IH. rewrite <- app_assoc. cbn [app]. f_equal.
      rewrite fmap_cons. unfold total. cbn [foldr]. ring.
    + apply IH.
Qed.

Lemma bom_form_spec lines :
  bom_form lines = (filter filled_in lines, total (snd <$> filter filled_in lines)).
Proof.
  unfold bom_form. rewrite bom_form_from. cbn [app]. f_equal. ring.
Qed.

Lemma py_abs_small (x eps : Qc) :
  ~ eps < py_abs x -> - eps <= x /\ x <= eps.
Proof.
  unfold py_abs. intros H. apply Qcnot_lt_le in H.
  destruct (decide (0 <= x)) as [Hx | Hx].
  - split; [| done]. qc2q_in H. qc2q_in Hx. qc2q. lra.
  - apply Qcnot_le_lt in Hx. split.
    + qc2q_in H. qc2q_in Hx. qc2q. lra.
    + qc2q_in H. qc2q_in Hx. qc2q. lra.
Qed.

(** X22. The registration button of a master BOM never reports that no bean
    was entered: a form without a filled-in line has a ratio sum of 0 and is
    turned away for its sum.  When the button goes on to register, the name is
    not empty, the lines to insert are exactly the filled-in lines of the form
    in their order, there is at least one, and their ratios add up to 100
    within 0.01. *)
Theorem btn_register_bom_checks bom_name lines :
  btn_register_bom bom_name lines <> NoBeans /\
  forall blend_data,
    btn_register_bom bom_name lines = Register blend_data ->
    bom_name <> "" /\
    blend_data = filter filled_in lines /\
    blend_data <> [] /\
    Qc_of_Z 100 - Q2Qc (1 # 100) <= total (snd <$> blend_data) /\
    total (snd <$> blend_data) <= Qc_of_Z 100 + Q2Qc (1 # 100).
Proof.
  unfold btn_register_bom. rewrite bom_form_spec.
  set (blend_data := filter filled_in lines).
  destruct (Py.truthy_str bom_name) eqn:Hname; cbn [negb]; [| by split].
  apply truthy_str_spec in Hname.
  destruct (decide (Q2Qc (1 # 100) < py_abs (total (snd <$> blend_data) - Qc_of_Z 100)))
    as [Hfar | Hnear]; [by split |].
  destruct (decide (length blend_data = 0%nat)) as [Hlen | Hlen].
  - exfalso. apply Hnear. apply nil_length_inv in Hlen. rewrite Hlen.
    by vm_compute.
  - split; [done |]. intros bd [= <-].
    apply py_abs_small in Hnear as [Hlo Hhi].
    split_and!; [done | done | by intros E; rewrite E in Hlen | |].
    + generalize dependent (total (snd <$> blend_data)). intros t Hlo Hhi.
      qc2q_in Hlo. qc2q. lra.
    + generalize dependent (total (snd <$> blend_data)). intros t Hlo Hhi.
      qc2q_in Hhi. qc2q. lra.
Qed.

Lemma btn_register_bom_checks_witness :
  btn_register_bom "Grosso Blend" [("", "", 0)] <> NoBeans /\
  btn_register_bom "Grosso Blend"
    [("Brazil", "Santos", Qc_of_Z 70); ("", "Sidamo", Qc_of_Z 10);
     ("Ethiopia", "Sidamo", Qc_of_Z 30)] =
    Register [("Brazil", "Santos", Qc_of_Z 70); ("Ethiopia", "Sidamo", Qc_of_Z 30)].
Proof.
  split.
  - apply (proj1 (btn_register_bom_checks "Grosso Blend" [("", "", 0)])).
  - pose proof (proj2 (btn_register_bom_checks "Grosso Blend"
        [("Brazil", "Santos", Qc_of_Z 70); ("", "Sidamo", Qc_of_Z 10);
         ("Ethiopia", "Sidamo", Qc_of_Z 30)]) _ eq_refl) as (_ & H & _).
    by vm_compute.
Defined.
